(** * IAF Human Management System: the data parser, the scoring engine,
      the workforce analytics and the planning stores

    A shallow embedding of
    - [components/utils/dataParser.ts] ([parseCSVData], [normalizeHeader],
      [calculateReadinessScore], [predictAttritionRisk],
      [generateTrainingRecommendations]),
    - [components/WorkforceAnalytics.tsx] (the grouped distributions),
    - [components/TrainingManagement.tsx] ([getSuitablePersonnel],
      [enrollPersonnel], [unenrollPersonnel], [createTrainingProgram]),
    - [components/MissionDeployment.tsx] ([getSuitablePersonnel],
      [assignPersonnelToMission], [removePersonnelFromMission]),
    followed by the properties of the specification that concern them.

    Conventions of the embedding.
    - A JavaScript string is a [string] of code units below 256.
    - A finite JavaScript number is an exact rational ([Q]); rounding to
      binary64 is not modelled.  Where the code can meet [NaN] or an
      infinity (the result of [parseFloat]) the type [JS.number] keeps them
      apart.
    - A JavaScript object used as a dictionary is a [gmap string _]; a
      missing property ([undefined]) is [None].
    - [Math.random] is an oracle [rng : nat -> Q]; the state threaded through
      the parser is the number of draws made so far.
    - [new Date()] and [new Date(s)] are parameters [now] and [dateParse]. *)

From Stdlib Require Import Ascii String ZArith QArith Qround Qminmax Lia Lqa Sorted Permutation.
From stdpp Require Import base list strings pretty gmap.

Local Open Scope string_scope.

(** ** The JavaScript primitives the program uses *)

Module JS.

Definition charCode (c : ascii) : N := N_of_ascii c.

(** White space as [String.prototype.trim] sees it, for code units below
    256: TAB, LF, VT, FF, CR, SP and NBSP. *)
Definition isWhiteSpace (c : ascii) : bool :=
  let n := charCode c in
  (((9 <=? n) && (n <=? 13)) || (n =? 32) || (n =? 160))%N.

Definition isUpper (c : ascii) : bool :=
  let n := charCode c in
  (((65 <=? n) && (n <=? 90)) ||
   ((192 <=? n) && (n <=? 222) && negb (n =? 215)))%N.

Definition lowerChar (c : ascii) : ascii :=
  if isUpper c then ascii_of_N (charCode c + 32) else c.

(** [s.toLowerCase()] *)
Fixpoint toLowerCase (s : string) : string :=
  match s with
  | EmptyString => EmptyString
  | String c r => String (lowerChar c) (toLowerCase r)
  end.

(** [s.trimStart()], [s.trimEnd()], [s.trim()] *)
Fixpoint trimStart (s : string) : string :=
  match s with
  | EmptyString => EmptyString
  | String c r => if isWhiteSpace c then trimStart r else s
  end.

Fixpoint trimEnd (s : string) : string :=
  match s with
  | EmptyString => EmptyString
  | String c r =>
      match trimEnd r with
      | EmptyString => if isWhiteSpace c then EmptyString else String c EmptyString
      | r' => String c r'
      end
  end.

Definition trim (s : string) : string := trimEnd (trimStart s).

(** [s.split(sep)] for a separator of one character: never empty, and
    [n] separators give [n + 1] pieces. *)
Fixpoint split (sep : ascii) (s : string) : list string :=
  match s with
  | EmptyString => [EmptyString]
  | String c r =>
      if Ascii.eqb c sep then EmptyString :: split sep r
      else match split sep r with
           | h :: t => String c h :: t
           | [] => [String c EmptyString]
           end
  end.

(** [s.replace(/[class]/g, '')]: delete every character of a class. *)
Fixpoint removeAll (cls : ascii -> bool) (s : string) : string :=
  match s with
  | EmptyString => EmptyString
  | String c r => if cls c then removeAll cls r else String c (removeAll cls r)
  end.

Fixpoint startsWith (s p : string) : bool :=
  match p, s with
  | EmptyString, _ => true
  | String _ _, EmptyString => false
  | String a p', String b s' => Ascii.eqb a b && startsWith s' p'
  end.

(** [s.includes(p)] *)
Fixpoint includes (s p : string) : bool :=
  startsWith s p ||
  match s with
  | EmptyString => false
  | String _ r => includes r p
  end.

(** [s.padStart(n, c)] for a pad of one character. *)
Definition padStart (n : nat) (c : ascii) (s : string) : string :=
  String.app (string_of_list_ascii (repeat c (n - String.length s))) s.

(** [String(i)] for a natural number. *)
Definition stringOfNat (i : nat) : string := pretty i.

(** *** Numbers *)

Inductive number : Type :=
  | NaN
  | Infinity (negative : bool)
  | Finite (q : Q).

Definition isDigit (c : ascii) : bool :=
  let n := charCode c in ((48 <=? n) && (n <=? 57))%N.

Definition digitValue (c : ascii) : Z := Z.of_N (charCode c) - 48.

(** The longest prefix of decimal digits, and what follows it. *)
Fixpoint spanDigits (s : string) : list Z * string :=
  match s with
  | EmptyString => ([], EmptyString)
  | String c r =>
      if isDigit c
      then let '(ds, rest) := spanDigits r in (digitValue c :: ds, rest)
      else ([], s)
  end.

Definition digitsValue (ds : list Z) : Z :=
  fold_left (fun acc d => 10 * acc + d)%Z ds 0%Z.

(** A leading sign, if any. *)
Definition takeSign (s : string) : bool * string :=
  match s with
  | String "+" r => (false, r)
  | String "-" r => (true, r)
  | _ => (false, s)
  end.

(** The [ExponentPart] of a [StrDecimalLiteral]: [e] or [E], an optional
    sign and at least one digit; otherwise no exponent is read. *)
Definition exponentPart (s : string) : Z :=
  match s with
  | String c r =>
      if Ascii.eqb c "e" || Ascii.eqb c "E" then
        let '(neg, r') := takeSign r in
        match spanDigits r' with
        | ([], _) => 0%Z
        | (ds, _) => if neg then (- digitsValue ds)%Z else digitsValue ds
        end
      else 0%Z
  | EmptyString => 0%Z
  end.

(** [parseFloat(s)]: leading white space is skipped and the longest prefix
    that is a [StrDecimalLiteral] is read; [NaN] when there is none. *)
Definition parseFloat (s : string) : number :=
  let '(neg, s1) := takeSign (trimStart s) in
  if startsWith s1 "Infinity" then Infinity neg else
  let '(ip, s2) := spanDigits s1 in
  let '(fp, s3) :=
    match s2 with
    | String "." r => spanDigits r
    | _ => ([], s2)
    end in
  match ip, fp with
  | [], [] => NaN
  | _, _ =>
      let m := digitsValue (ip ++ fp) in
      let e := (exponentPart s3 - Z.of_nat (length fp))%Z in
      let v := (inject_Z m * Qpower 10 e)%Q in
      Finite (Qred (if neg then - v else v))
  end.

(** *** Values held by the properties of a row object *)

Inductive value : Type :=
  | VStr (s : string)
  | VNum (n : number).

Definition isZero (q : Q) : bool := Qeq_bool q 0.

(** ToBoolean *)
Definition truthy (v : value) : bool :=
  match v with
  | VStr s => negb (String.eqb s EmptyString)
  | VNum NaN => false
  | VNum (Infinity _) => true
  | VNum (Finite q) => negb (isZero q)
  end.

(** Comparisons of finite numbers, as booleans. *)
Definition ltb (a b : Q) : bool := negb (Qle_bool b a).
Definition gtb (a b : Q) : bool := ltb b a.
Definition geb (a b : Q) : bool := Qle_bool b a.

(** [Math.round]: the nearest integer, a tie going up. *)
Definition round (x : Q) : Z := Qfloor (x + (1 # 2))%Q.

(** [Math.floor] *)
Definition floor (x : Q) : Z := Qfloor x.

(** [Math.min] *)
Definition min (a b : Q) : Q := Qmin a b.

(** [x.toFixed(1)], given as the number of tenths it prints: the integer
    [n] with [n / 10] nearest to [x], the larger one on a tie. *)
Definition toFixed1 (x : Q) : Z := Qfloor (x * 10 + (1 # 2))%Q.

(** [xs.sort(compareFn)]: the sort is stable, so for a comparator that
    orders the elements its result is the one of a stable insertion sort:
    [x] stays in front of the first [y] with [compareFn(x, y) <= 0]. *)
Fixpoint sortInsert {A : Type} (compareFn : A -> A -> Q) (x : A) (l : list A)
  : list A :=
  match l with
  | [] => [x]
  | y :: r =>
      if gtb (compareFn x y) 0 then y :: sortInsert compareFn x r
      else x :: y :: r
  end.

Definition sort {A : Type} (compareFn : A -> A -> Q) (l : list A) : list A :=
  fold_right (sortInsert compareFn) [] l.

(** [xs.includes(x)] on an array of strings *)
Definition arrayIncludes (xs : list string) (x : string) : bool :=
  existsb (String.eqb x) xs.

(** [s.split(' ')[0]] *)
Definition firstWord (s : string) : string :=
  hd EmptyString (split (ascii_of_N 32) s).

(** [xs.slice(start, end)]: negative indices count from the end, and the
    bounds are clamped to the array. *)
Definition slice {A : Type} (start stop : Z) (l : list A) : list A :=
  let len := Z.of_nat (length l) in
  let k := if (start <? 0)%Z then Z.max (len + start) 0 else Z.min start len in
  let final := if (stop <? 0)%Z then Z.max (len + stop) 0 else Z.min stop len in
  take (Z.to_nat (final - k)) (drop (Z.to_nat k) l).

(** [Math.ceil] *)
Definition ceil (x : Q) : Z := Qceiling x.

(** [[...new Set(xs)]]: the first occurrence of each string, in order. *)
Definition unique (xs : list string) : list string :=
  fold_left (fun seen x => if arrayIncludes seen x then seen else (seen ++ [x])%list)
    xs [].

(** The comparison of two strings by their code units, as the default
    [sort()] of an array of strings makes it. *)
Definition compareStrings (a b : string) : Q :=
  match String.compare a b with
  | Lt => - (1)
  | Eq => 0
  | Gt => 1
  end.

(** [obj[k]] on an object kept as a list of its properties. *)
Fixpoint getProp {A : Type} (k : string) (o : list (string * A)) : option A :=
  match o with
  | [] => None
  | (k', v) :: r => if String.eqb k' k then Some v else getProp k r
  end.

(** [obj[k] = v]: an existing property keeps its place, a new one is
    added last. *)
Fixpoint setProp {A : Type} (k : string) (v : A) (o : list (string * A))
  : list (string * A) :=
  match o with
  | [] => [(k, v)]
  | (k', v') :: r =>
      if String.eqb k' k then (k', v) :: r else (k', v') :: setProp k v r
  end.

(** [xs.find(p)] *)
Fixpoint find {A : Type} (p : A -> bool) (l : list A) : option A :=
  match l with
  | [] => None
  | x :: r => if p x then Some x else find p r
  end.

(** *** btoa *)

(** The code of the character that stands for a group of six bits:
    [A-Z], [a-z], [0-9], [+] and [/]. *)
Definition base64Code (n : N) : N :=
  if (n <? 26)%N then (n + 65)%N
  else if (n <? 52)%N then (n + 71)%N
  else if (n <? 62)%N then (n - 4)%N
  else if (n =? 62)%N then 43%N
  else 47%N.

Definition base64Char (n : N) : ascii := ascii_of_N (base64Code n).

Definition padChar : ascii := ascii_of_N 61.

(** [btoa(s)] for a string of code units below 256 (on any other string
    [btoa] throws): three characters give four, and the last group is
    filled with [=]. *)
Fixpoint btoa (s : string) : string :=
  match s with
  | EmptyString => EmptyString
  | String a EmptyString =>
      let x := charCode a in
      String (base64Char (x / 4))
        (String (base64Char (x mod 4 * 16))
           (String padChar (String padChar EmptyString)))
  | String a (String b EmptyString) =>
      let x := charCode a in
      let y := charCode b in
      String (base64Char (x / 4))
        (String (base64Char (x mod 4 * 16 + y / 16))
           (String (base64Char (y mod 16 * 4))
              (String padChar EmptyString)))
  | String a (String b (String c r)) =>
      let x := charCode a in
      let y := charCode b in
      let z := charCode c in
      String (base64Char (x / 4))
        (String (base64Char (x mod 4 * 16 + y / 16))
           (String (base64Char (y mod 16 * 4 + z / 64))
              (String (base64Char (z mod 64)) (btoa r))))
  end%N.

End JS.

(** ** components/utils/dataParser.ts *)

Module DataParser.
Import JS.

(** [interface PersonnelData]; the index signature [[key: string]: any]
    is what [parseCSVData] produces and is kept there as a dictionary. *)
Record PersonnelData : Type := {
  id : string;
  name : string;
  rank : string;
  branch : string;
  specialization : string;
  experience : Q;
  age : Q;
  medicalStatus : string;
  trainingScore : Q;
  missionReadiness : string;
  lastDeployment : string;
  skillLevel : string;
  leadershipPotential : string
}.

(** *** normalizeHeader *)

Definition isLowerAlnum (c : ascii) : bool :=
  let n := charCode c in
  (((97 <=? n) && (n <=? 122)) || ((48 <=? n) && (n <=? 57)))%N.

Definition normalizeHeader (header : string) : string :=
  removeAll isWhiteSpace
    (removeAll (fun c => negb (isLowerAlnum c)) (toLowerCase header)).

(** *** parseCSVData *)

Definition newline : ascii := ascii_of_N 10.
Definition comma : ascii := ascii_of_N 44.
Definition quote : ascii := ascii_of_N 34.

(** The message of the rejection raised when no data row is present. *)
Definition MalformedInputError : string :=
  "File must contain at least a header row and one data row".

(** A row object ([record], [personnelRecord]). *)
Abbreviation object := (gmap string value).

(** [text.split('\n').filter(line => line.trim())] *)
Definition nonBlankLines (text : string) : list string :=
  List.filter (fun line => truthy (VStr (trim line))) (split newline text).

(** [line.split(',').map(v => v.trim().replace(/QUOTE/g, ''))], where
    QUOTE is the double-quote character. *)
Definition fields (line : string) : list string :=
  List.map (fun v => removeAll (Ascii.eqb quote) (trim v)) (split comma line).

(** [['experience', 'age', 'trainingscore', 'score'].includes(h.toLowerCase())] *)
Definition isNumericField (h : string) : bool :=
  existsb (String.eqb (toLowerCase h))
    ["experience"; "age"; "trainingscore"; "score"].

(** The value stored for one cell: [parseFloat(value) || 0] in a numeric
    column, [value || ''] elsewhere. *)
Definition cellValue (normalizedHeader v : string) : value :=
  if isNumericField normalizedHeader then
    let n := VNum (parseFloat v) in
    if truthy n then n else VNum (Finite 0)
  else
    if truthy (VStr v) then VStr v else VStr EmptyString.

(** The body of [headers.forEach]: a later column of the same normalized
    name overwrites an earlier one. *)
Definition buildRecord (headers values : list string) : object :=
  fold_left
    (fun (record : object) '(header, v) =>
       let normalizedHeader := normalizeHeader header in
       <[normalizedHeader := cellValue normalizedHeader v]> record)
    (combine headers values) (∅ : object).

(** State passing for [Math.random]: the state counts the draws. *)
Definition M (A : Type) : Type := nat -> A * nat.
Definition ret {A : Type} (a : A) : M A := fun k => (a, k).
Definition bind {A B : Type} (m : M A) (f : A -> M B) : M B :=
  fun k => let '(a, k') := m k in f a k'.

Notation "'let!' x ':=' m 'in' f" := (bind m (fun x => f))
  (at level 10, x name, m at level 100, f at level 200, only parsing).

(** [a || b || ... ]: the first truthy operand among the property reads. *)
Fixpoint firstTruthy (vs : list (option value)) : option value :=
  match vs with
  | [] => None
  | Some v :: r => if truthy v then Some v else firstTruthy r
  | None :: r => firstTruthy r
  end.

(** [a || b || ... || d], the last operand [d] evaluated only when every
    read before it is falsy. *)
Definition orDefault (vs : list (option value)) (d : M (option value))
  : M (option value) :=
  match firstTruthy vs with
  | Some v => ret (Some v)
  | None => d
  end.

(** [{ k1: v1, ..., kn: vn }]; a property whose value is [undefined]
    reads like a missing one. *)
Definition objectLiteral (props : list (string * option value)) : object :=
  fold_left
    (fun (o : object) '(k, v) =>
       match v with Some x => <[k := x]> o | None => delete k o end)
    props (∅ : object).

Section Parser.

Variable rng : nat -> Q.

(** [Math.random()] *)
Definition random : M Q := fun k => (rng k, S k).

(** [Math.floor(Math.random() * n) + base] *)
Definition randomInt (n base : Z) : M (option value) :=
  let! r := random in
  ret (Some (VNum (Finite (inject_Z (floor (r * inject_Z n) + base))))).

(** [[x0, ..., xn][Math.floor(Math.random() * len)]] *)
Definition randomChoice (xs : list string) : M (option value) :=
  let! r := random in
  let i := floor (r * inject_Z (Z.of_nat (length xs))) in
  ret (if (0 <=? i)%Z then VStr <$> (xs !! Z.to_nat i) else None).

Definition str (s : string) : M (option value) := ret (Some (VStr s)).

(** The object literal [personnelRecord] of row [i] (the index of the line
    among the non-blank lines): the defaults, then [...record]. *)
Definition personnelRecord (i : nat) (record : object) : M object :=
  let! v_id := orDefault [record !! "id"; record !! "ID"]
            (str ("IAF" ++ padStart 4 "0" (stringOfNat i))) in
  let! v_name := orDefault [record !! "name"; record !! "Name";
                       record !! "fullname"; record !! "FullName"]
            (str ("Personnel " ++ stringOfNat i)) in
  let! v_rank := orDefault [record !! "rank"; record !! "Rank";
                       record !! "grade"; record !! "Grade"]
            (str "Officer") in
  let! v_branch := orDefault [record !! "branch"; record !! "Branch";
                         record !! "service"; record !! "Service"]
            (str "Air Force") in
  let! v_specialization :=
    orDefault [record !! "specialization"; record !! "Specialization";
               record !! "specialty"; record !! "Specialty"]
            (str "General") in
  let! v_experience :=
    orDefault [record !! "experience"; record !! "Experience";
               record !! "yearsofservice"; record !! "YearsOfService"]
            (randomInt 20 1) in
  let! v_age := orDefault [record !! "age"; record !! "Age"] (randomInt 20 25) in
  let! v_medicalStatus :=
    orDefault [record !! "medicalstatus"; record !! "MedicalStatus";
               record !! "medical"; record !! "Medical"]
            (randomChoice ["Fit"; "Under Review"; "Limited Duty"]) in
  let! v_trainingScore :=
    orDefault [record !! "trainingscore"; record !! "TrainingScore";
               record !! "score"; record !! "Score"]
            (randomInt 40 60) in
  let! v_missionReadiness :=
    orDefault [record !! "missionreadiness"; record !! "MissionReadiness";
               record !! "readiness"; record !! "Readiness"]
            (randomChoice ["Ready"; "Training"; "Not Ready"]) in
  let! v_lastDeployment :=
    orDefault [record !! "lastdeployment"; record !! "LastDeployment";
               record !! "deployment"; record !! "Deployment"]
            (str "2024-01-01") in
  let! v_skillLevel :=
    orDefault [record !! "skilllevel"; record !! "SkillLevel";
               record !! "level"; record !! "Level"]
            (randomChoice ["Expert"; "Advanced"; "Intermediate"; "Beginner"]) in
  let! v_leadershipPotential :=
    orDefault [record !! "leadershippotential"; record !! "LeadershipPotential";
               record !! "leadership"; record !! "Leadership"]
            (randomChoice ["High"; "Medium"; "Low"]) in
  ret (record ∪
       objectLiteral
         [("id", v_id); ("name", v_name); ("rank", v_rank);
          ("branch", v_branch); ("specialization", v_specialization);
          ("experience", v_experience); ("age", v_age);
          ("medicalStatus", v_medicalStatus);
          ("trainingScore", v_trainingScore);
          ("missionReadiness", v_missionReadiness);
          ("lastDeployment", v_lastDeployment);
          ("skillLevel", v_skillLevel);
          ("leadershipPotential", v_leadershipPotential)]).

(** The loop [for (let i = 1; i < lines.length; i++)] from line [i] on:
    a row whose field count differs from the header count is skipped. *)
Fixpoint parseRows (headers : list string) (i : nat) (lines : list string)
  : M (list object) :=
  match lines with
  | [] => ret []
  | line :: rest =>
      let values := fields line in
      if negb (length values =? length headers)%nat
      then parseRows headers (S i) rest
      else
        let! r := personnelRecord i (buildRecord headers values) in
        let! data := parseRows headers (S i) rest in
        ret (r :: data)
  end.

(** [parseCSVData], from the text the reader delivers: [inl] is the
    rejection of the promise, [inr] its resolution. *)
Definition parseCSVData (text : string) : string + list object :=
  let lines := nonBlankLines text in
  if (length lines <? 2)%nat then inl MalformedInputError
  else
    let headers := fields (hd EmptyString lines) in
    inr (fst (parseRows headers 1 (tl lines) 0%nat)).

End Parser.

(** *** calculateReadinessScore *)

Definition calculateReadinessScore (personnel : PersonnelData) : Z :=
  let score := 0%Q in
  (* Medical status contribution (40%) *)
  let score :=
    (let m := toLowerCase (medicalStatus personnel) in
     if String.eqb m "fit" then score + 40
     else if String.eqb m "limited duty" then score + 25
     else if String.eqb m "under review" then score + 10
     else score + 20)%Q in
  (* Training score contribution (30%) *)
  let score := (score + (trainingScore personnel / 100) * 30)%Q in
  (* Experience contribution (20%) *)
  let expScore := (min (experience personnel / 20) 1 * 20)%Q in
  let score := (score + expScore)%Q in
  (* Skill level contribution (10%) *)
  let score :=
    (let l := toLowerCase (skillLevel personnel) in
     if String.eqb l "expert" then score + 10
     else if String.eqb l "advanced" then score + 8
     else if String.eqb l "intermediate" then score + 6
     else if String.eqb l "beginner" then score + 4
     else score + 5)%Q in
  round score.

(** *** predictAttritionRisk *)

Inductive AttritionRisk : Type := Low | Medium | High.

(** The local variable [riskScore] when the thresholds have been read. *)
Definition riskScore (personnel : PersonnelData) : Z :=
  let riskScore := 0%Z in
  (* Age factor *)
  let riskScore :=
    if gtb (age personnel) 45 then (riskScore + 2)%Z
    else if gtb (age personnel) 40 then (riskScore + 1)%Z
    else riskScore in
  (* Experience factor *)
  let riskScore :=
    if gtb (experience personnel) 15 then (riskScore + 2)%Z
    else if gtb (experience personnel) 10 then (riskScore + 1)%Z
    else riskScore in
  (* Medical status *)
  let riskScore :=
    if negb (String.eqb (toLowerCase (medicalStatus personnel)) "fit")
    then (riskScore + 1)%Z else riskScore in
  (* Training score *)
  let riskScore :=
    if ltb (trainingScore personnel) 70 then (riskScore + 1)%Z
    else riskScore in
  (* Mission readiness *)
  let riskScore :=
    if String.eqb (toLowerCase (missionReadiness personnel)) "not ready"
    then (riskScore + 1)%Z else riskScore in
  riskScore.

Definition predictAttritionRisk (personnel : PersonnelData) : AttritionRisk :=
  let riskScore := riskScore personnel in
  if (4 <=? riskScore)%Z then High
  else if (2 <=? riskScore)%Z then Medium
  else Low.

(** *** generateTrainingRecommendations *)

Section Clock.

(** [new Date().getTime()], in milliseconds. *)
Variable now : Z.
(** [new Date(s).getTime()]; [None] is the [NaN] of an invalid date. *)
Variable dateParse : string -> option Z.

(** [Math.floor((now - then) / (1000 * 60 * 60 * 24))], [None] for [NaN]. *)
Definition daysSinceDeployment (personnel : PersonnelData) : option Z :=
  match dateParse (lastDeployment personnel) with
  | Some t => Some ((now - t) / (1000 * 60 * 60 * 24))%Z
  | None => None
  end.

Definition push (recommendations : list string) (r : string) : list string :=
  recommendations ++ [r].

Definition generateTrainingRecommendations (personnel : PersonnelData)
  : list string :=
  let recommendations : list string := [] in
  let recommendations :=
    if ltb (trainingScore personnel) 70
    then push recommendations "Core Skills Refresher Training"
    else recommendations in
  let recommendations :=
    if String.eqb (toLowerCase (skillLevel personnel)) "beginner"
       || String.eqb (toLowerCase (skillLevel personnel)) "intermediate"
    then push recommendations "Advanced Technical Training"
    else recommendations in
  let recommendations :=
    if String.eqb (toLowerCase (leadershipPotential personnel)) "high"
       && gtb (experience personnel) 5
    then push recommendations "Leadership Development Program"
    else recommendations in
  let recommendations :=
    if String.eqb (toLowerCase (missionReadiness personnel)) "training"
    then push recommendations "Mission Readiness Assessment"
    else recommendations in
  let recommendations :=
    match daysSinceDeployment personnel with
    | Some days =>
        if (365 <? days)%Z
        then push recommendations "Deployment Readiness Training"
        else recommendations
    | None => recommendations
    end in
  let recommendations :=
    if (length recommendations =? 0)%nat
    then push recommendations "Maintenance Training"
    else recommendations in
  recommendations.

End Clock.

End DataParser.

(** ** components/WorkforceAnalytics.tsx *)

Module WorkforceAnalytics.
Import JS.

(** The accumulator of [data.reduce(..., {})]: the property names in the
    order of their insertion, each with its count.  (An object lists
    integer-like names first; no property read here depends on the order.) *)
Fixpoint increment (k : string) (acc : list (string * Z)) : list (string * Z) :=
  match acc with
  | [] => [(k, (0 + 1)%Z)]
  | (k', c) :: r =>
      if String.eqb k' k then (k', (c + 1)%Z) :: r
      else (k', c) :: increment k r
  end.

(** [data.reduce((acc, person) => { acc[key] = (acc[key] || 0) + 1; return acc }, {})] *)
Definition groupCounts (key : DataParser.PersonnelData -> string)
  (data : list DataParser.PersonnelData) : list (string * Z) :=
  fold_left (fun acc person => increment (key person) acc) data [].

(** One entry of a distribution; [percentage] is the number of tenths that
    [toFixed(1)] prints. *)
Record Share : Type := {
  label : string;
  count : Z;
  percentage : Z
}.

(** [((count / data.length) * 100).toFixed(1)] *)
Definition percentageOf (count : Z) (total : nat) : Z :=
  toFixed1 ((inject_Z count / inject_Z (Z.of_nat total)) * 100).

(** [Object.entries(groups).map(([k, count]) => ({ k, count, percentage }))] *)
Definition distribution (rename : string -> string)
  (key : DataParser.PersonnelData -> string)
  (data : list DataParser.PersonnelData) : list Share :=
  List.map
    (fun '(k, c) =>
       {| label := rename k; count := c;
          percentage := percentageOf c (length data) |})
    (groupCounts key data).

Definition ageGroup (person : DataParser.PersonnelData) : string :=
  if ltb (DataParser.age person) 30 then "<30"
  else if ltb (DataParser.age person) 40 then "30-39"
  else if ltb (DataParser.age person) 50 then "40-49"
  else "50+".


Definition scoreGroup (person : DataParser.PersonnelData) : string :=
  if geb (DataParser.trainingScore person) 90 then "90-100"
  else if geb (DataParser.trainingScore person) 80 then "80-89"
  else if geb (DataParser.trainingScore person) 70 then "70-79"
  else if geb (DataParser.trainingScore person) 60 then "60-69"
  else "<60".

Definition same (s : string) : string := s.

Definition byCountDescending (a b : Share) : Q :=
  inject_Z (count b - count a).

Definition rankData (data : list DataParser.PersonnelData) : list Share :=
  sort byCountDescending (distribution same DataParser.rank data).
Definition specializationData (data : list DataParser.PersonnelData)
  : list Share :=
  take 10 (sort byCountDescending
             (distribution same DataParser.specialization data)).
Definition readinessData := distribution same DataParser.missionReadiness.
Definition medicalData := distribution same DataParser.medicalStatus.
Definition leadershipData := distribution same DataParser.leadershipPotential.

(** The sum of the percentages of a distribution, in tenths of a percent. *)
Definition totalPercentage (d : list Share) : Z :=
  fold_right (fun s acc => (percentage s + acc)%Z) 0%Z d.

End WorkforceAnalytics.

(** ** components/TrainingManagement.tsx *)

Module TrainingManagement.
Import JS.

Inductive Status : Type := Planned | Active | Completed.

(** [interface TrainingProgram] *)
Record TrainingProgram : Type := {
  id : string;
  name : string;
  type : string;
  duration : Z;
  capacity : Z;
  startDate : string;
  endDate : string;
  instructor : string;
  description : string;
  prerequisites : list string;
  targetSkillLevel : string;
  enrolledPersonnel : list string;
  status : Status
}.

(** [{ ...program, enrolledPersonnel: roster }] *)
Definition withEnrolledPersonnel (program : TrainingProgram)
  (roster : list string) : TrainingProgram :=
  {| id := id program; name := name program; type := type program;
     duration := duration program; capacity := capacity program;
     startDate := startDate program; endDate := endDate program;
     instructor := instructor program; description := description program;
     prerequisites := prerequisites program;
     targetSkillLevel := targetSkillLevel program;
     enrolledPersonnel := roster; status := status program |}.

(** The initial state of [useState<TrainingProgram[]>]. *)
Definition initialTrainingPrograms : list TrainingProgram :=
  [ {| id := "T001"; name := "Advanced Flight Operations";
       type := "Technical"; duration := 14; capacity := 20;
       startDate := "2024-03-01"; endDate := "2024-03-15";
       instructor := "Wing Commander Sharma";
       description := "Advanced training in modern flight operations and navigation systems";
       prerequisites := ["Basic Flight Training"; "Navigation Certification"];
       targetSkillLevel := "Advanced"; enrolledPersonnel := [];
       status := Planned |};
    {| id := "T002"; name := "Leadership Development Program";
       type := "Leadership"; duration := 21; capacity := 15;
       startDate := "2024-02-20"; endDate := "2024-03-13";
       instructor := "Group Captain Patel";
       description := "Comprehensive leadership training for future commanders";
       prerequisites := ["5+ years experience"; "Supervisory Role"];
       targetSkillLevel := "Expert"; enrolledPersonnel := [];
       status := Active |};
    {| id := "T003"; name := "Cyber Security Fundamentals";
       type := "Technical"; duration := 7; capacity := 25;
       startDate := "2024-03-10"; endDate := "2024-03-17";
       instructor := "Squadron Leader Kumar";
       description := "Essential cybersecurity training for all personnel";
       prerequisites := ["Basic Computer Skills"];
       targetSkillLevel := "Intermediate"; enrolledPersonnel := [];
       status := Planned |} ].

(** The updater passed to [setTrainingPrograms] by [enrollPersonnel]. *)
Definition enrollPersonnel (programId personnelId : string)
  (prev : list TrainingProgram) : list TrainingProgram :=
  List.map
    (fun program =>
       if String.eqb (id program) programId
          && (Z.of_nat (length (enrolledPersonnel program)) <? capacity program)%Z
       then withEnrolledPersonnel program
              (enrolledPersonnel program ++ [personnelId])
       else program)
    prev.

(** The updater passed to [setTrainingPrograms] by [unenrollPersonnel]. *)
Definition unenrollPersonnel (programId personnelId : string)
  (prev : list TrainingProgram) : list TrainingProgram :=
  List.map
    (fun program =>
       if String.eqb (id program) programId
       then withEnrolledPersonnel program
              (List.filter (fun i => negb (String.eqb i personnelId))
                 (enrolledPersonnel program))
       else program)
    prev.

(** The form state [newProgram : Partial<TrainingProgram>]: the texts are
    empty until typed, the numbers are what [parseInt] made of the input
    ([None] for [NaN]). *)
Record NewProgram : Type := {
  newName : string;
  newType : string;
  newDuration : option Z;
  newCapacity : option Z;
  newStartDate : string;
  newInstructor : string;
  newDescription : string;
  newTargetSkillLevel : string
}.

(** [n || d] for a number read by [parseInt] *)
Definition numberOr (n : option Z) (d : Z) : Z :=
  match n with
  | Some v => if (v =? 0)%Z then d else v
  | None => d
  end.

(** [s || d] for a string *)
Definition stringOr (s d : string) : string :=
  if String.eqb s EmptyString then d else s.

Section Store.

(** The date arithmetic of [createTrainingProgram]: the start date moved by
    a number of days, printed as an ISO date. *)
Variable addDays : string -> Z -> string.

Definition createTrainingProgram (newProgram : NewProgram)
  (trainingPrograms : list TrainingProgram) : list TrainingProgram :=
  if String.eqb (newName newProgram) EmptyString
     || String.eqb (newType newProgram) EmptyString
     || String.eqb (newStartDate newProgram) EmptyString
  then trainingPrograms
  else
    let program :=
      {| id := "T" ++ padStart 3 "0"
                        (stringOfNat (length trainingPrograms + 1));
         name := newName newProgram;
         type := newType newProgram;
         duration := numberOr (newDuration newProgram) 7;
         capacity := numberOr (newCapacity newProgram) 20;
         startDate := newStartDate newProgram;
         endDate := addDays (newStartDate newProgram)
                      (numberOr (newDuration newProgram) 7);
         instructor := stringOr (newInstructor newProgram) "TBD";
         description := stringOr (newDescription newProgram) EmptyString;
         prerequisites := [];
         targetSkillLevel :=
           stringOr (newTargetSkillLevel newProgram) "Intermediate";
         enrolledPersonnel := [];
         status := Planned |} in
    trainingPrograms ++ [program].

(** The operations on the store, and the states they reach. *)
Inductive Action : Type :=
  | Enroll (programId personnelId : string)
  | Unenroll (programId personnelId : string)
  | Create (newProgram : NewProgram).

Definition step (s : list TrainingProgram) (a : Action) : list TrainingProgram :=
  match a with
  | Enroll programId personnelId => enrollPersonnel programId personnelId s
  | Unenroll programId personnelId => unenrollPersonnel programId personnelId s
  | Create newProgram => createTrainingProgram newProgram s
  end.

Definition run (actions : list Action) : list TrainingProgram :=
  fold_left step actions initialTrainingPrograms.

End Store.

Section Candidates.

Variable now : Z.
Variable dateParse : string -> option Z.
(** The component state read by [getSuitablePersonnel]. *)
Variable data : list DataParser.PersonnelData.
Variable searchTerm : string.
Variable filterSpecialization : string.

Definition isRecommended (program : TrainingProgram)
  (person : DataParser.PersonnelData) : bool :=
  existsb
    (fun rec =>
       includes (toLowerCase rec) (firstWord (toLowerCase (name program)))
       || includes (toLowerCase (name program)) (firstWord (toLowerCase rec)))
    (DataParser.generateTrainingRecommendations now dateParse person).

Definition suitable (program : TrainingProgram)
  (person : DataParser.PersonnelData) : bool :=
  (* Check if already enrolled *)
  if arrayIncludes (enrolledPersonnel program) (DataParser.id person)
  then false
  (* Check medical fitness *)
  else if negb (String.eqb (toLowerCase (DataParser.medicalStatus person)) "fit")
  then false
  else
    let searchMatch :=
      String.eqb searchTerm EmptyString
      || includes (toLowerCase (DataParser.name person)) (toLowerCase searchTerm)
      || includes (toLowerCase (DataParser.specialization person))
           (toLowerCase searchTerm) in
    let specMatch :=
      String.eqb filterSpecialization "all"
      || String.eqb (DataParser.specialization person) filterSpecialization in
    searchMatch && specMatch
    && (isRecommended program person
        || ltb (DataParser.trainingScore person) 80).

(** Sort by training need (lower scores first). *)
Definition byTrainingNeed (a b : DataParser.PersonnelData) : Q :=
  DataParser.trainingScore a - DataParser.trainingScore b.

Definition getSuitablePersonnel (program : TrainingProgram)
  : list DataParser.PersonnelData :=
  sort byTrainingNeed (List.filter (suitable program) data).

End Candidates.

Section Analytics.

Variable now : Z.
Variable dateParse : string -> option Z.
Variable data : list DataParser.PersonnelData.
Variable trainingPrograms : list TrainingProgram.

Definition getPriorityScore (person : DataParser.PersonnelData)
  (recommendation : string) : Z :=
  let score := 0%Z in
  let score :=
    if ltb (DataParser.trainingScore person) 70 then (score + 3)%Z
    else score in
  let score :=
    if String.eqb (toLowerCase (DataParser.missionReadiness person)) "training"
    then (score + 2)%Z else score in
  let score :=
    if String.eqb (toLowerCase (DataParser.skillLevel person)) "beginner"
    then (score + 2)%Z else score in
  let score :=
    if includes recommendation "Leadership"
       && String.eqb (toLowerCase (DataParser.leadershipPotential person)) "high"
    then (score + 2)%Z else score in
  score.

(** An element of [allRecommendations]. *)
Record Recommended : Type := {
  personnelId : string;
  recommendation : string;
  priority : Z
}.

(** Get training recommendations for all personnel. *)
Definition allRecommendations : list Recommended :=
  flat_map
    (fun person =>
       List.map
         (fun rec =>
            {| personnelId := DataParser.id person;
               recommendation := rec;
               priority := getPriorityScore person rec |})
         (DataParser.generateTrainingRecommendations now dateParse person))
    data.

(** Count recommendation frequency. *)
Definition recommendationCounts : list (string * Z) :=
  fold_left
    (fun acc item => WorkforceAnalytics.increment (recommendation item) acc)
    allRecommendations [].

(** An element of [topRecommendations]. *)
Record Frequency : Type := {
  topic : string;
  count : Z;
  percentage : Q
}.

Definition byCountDescending (a b : Frequency) : Q :=
  inject_Z (count b - count a).

Definition topRecommendations : list Frequency :=
  slice 0 8
    (sort byCountDescending
       (List.map
          (fun '(rec, c) =>
             {| topic := rec; count := c;
                percentage :=
                  inject_Z c / inject_Z (Z.of_nat (length data)) * 100 |})
          recommendationCounts)).

Definition skillDistribution : list (string * Z) :=
  WorkforceAnalytics.groupCounts DataParser.skillLevel data.

Definition trainingScoreRanges : list (string * Z) :=
  WorkforceAnalytics.groupCounts WorkforceAnalytics.scoreGroup data.

(** Personnel needing urgent training. *)
Definition urgent (person : DataParser.PersonnelData) : bool :=
  ltb (DataParser.trainingScore person) 70
  || String.eqb (toLowerCase (DataParser.skillLevel person)) "beginner"
  || String.eqb (toLowerCase (DataParser.missionReadiness person)) "training".

Definition urgentTraining : list DataParser.PersonnelData :=
  List.filter urgent data.

Definition averageScore : Q :=
  (fold_left (fun sum p => sum + DataParser.trainingScore p) data 0
   / inject_Z (Z.of_nat (length data)))%Q.

Definition specializations : list string :=
  sort compareStrings (unique (List.map DataParser.specialization data)).

(** Summary statistics. *)
Definition totalPrograms : nat := length trainingPrograms.

Definition activePrograms : nat :=
  length
    (List.filter
       (fun p => match status p with Active => true | _ => false end)
       trainingPrograms).

Definition totalEnrolled : Z :=
  fold_left (fun sum p => (sum + Z.of_nat (length (enrolledPersonnel p)))%Z)
    trainingPrograms 0%Z.

Definition needsTraining : nat := length urgentTraining.

End Analytics.

End TrainingManagement.

(** ** components/MissionDeployment.tsx *)

Module MissionDeployment.
Import JS.

Inductive Priority : Type := High | Medium | Low.
Inductive Status : Type := Planning | Active | Completed.
Inductive Availability : Type := Available | Deployed | Training | Medical.

(** [interface Mission] *)
Record Mission : Type := {
  id : string;
  name : string;
  type : string;
  priority : Priority;
  startDate : string;
  duration : Z;
  requiredPersonnel : Z;
  requiredSpecializations : list string;
  status : Status;
  assignedPersonnel : list string;
  location : string;
  description : string
}.

(** [{ ...mission, assignedPersonnel: roster }] *)
Definition withAssignedPersonnel (mission : Mission) (roster : list string)
  : Mission :=
  {| id := id mission; name := name mission; type := type mission;
     priority := priority mission; startDate := startDate mission;
     duration := duration mission;
     requiredPersonnel := requiredPersonnel mission;
     requiredSpecializations := requiredSpecializations mission;
     status := status mission; assignedPersonnel := roster;
     location := location mission; description := description mission |}.

(** The initial state of [useState<Mission[]>]. *)
Definition initialMissions : list Mission :=
  [ {| id := "M001"; name := "Operation Thunder Strike"; type := "Combat";
       priority := High; startDate := "2024-02-15"; duration := 90;
       requiredPersonnel := 25;
       requiredSpecializations := ["Pilot"; "Engineer"; "Communications"];
       status := Planning; assignedPersonnel := [];
       location := "Northern Sector";
       description := "Strategic air operations in northern territory" |};
    {| id := "M002"; name := "Humanitarian Relief Alpha";
       type := "Humanitarian"; priority := Medium;
       startDate := "2024-03-01"; duration := 45;
       requiredPersonnel := 15;
       requiredSpecializations := ["Logistics"; "Medical"; "Transport"];
       status := Planning; assignedPersonnel := [];
       location := "Eastern Region";
       description := "Disaster relief and humanitarian assistance operations" |} ].

(** The updater passed to [setMissions] by [assignPersonnelToMission]. *)
Definition assignPersonnelToMission (missionId personnelId : string)
  (prev : list Mission) : list Mission :=
  List.map
    (fun mission =>
       if String.eqb (id mission) missionId
       then withAssignedPersonnel mission
              (assignedPersonnel mission ++ [personnelId])
       else mission)
    prev.

(** The updater passed to [setMissions] by [removePersonnelFromMission]. *)
Definition removePersonnelFromMission (missionId personnelId : string)
  (prev : list Mission) : list Mission :=
  List.map
    (fun mission =>
       if String.eqb (id mission) missionId
       then withAssignedPersonnel mission
              (List.filter (fun i => negb (String.eqb i personnelId))
                 (assignedPersonnel mission))
       else mission)
    prev.

Definition isActive (s : Status) : bool :=
  match s with Active => true | _ => false end.

Definition isAvailable (a : Availability) : bool :=
  match a with Available => true | _ => false end.

(** An element of [personnelWithReadiness]:
    [{ ...person, readinessScore, availabilityStatus, lastDeploymentDays }]. *)
Record PersonnelWithReadiness : Type := {
  person : DataParser.PersonnelData;
  readinessScore : Z;
  availabilityStatus : Availability;
  lastDeploymentDays : option Z
}.

Section Candidates.

Variable now : Z.
Variable dateParse : string -> option Z.
(** The component state read by [getSuitablePersonnel]. *)
Variable data : list DataParser.PersonnelData.
Variable missions : list Mission.
Variable searchTerm : string.
Variable filterSpecialization : string.

Definition getAvailabilityStatus (p : DataParser.PersonnelData)
  : Availability :=
  if negb (String.eqb (toLowerCase (DataParser.medicalStatus p)) "fit")
  then Medical
  else if String.eqb (toLowerCase (DataParser.missionReadiness p)) "training"
  then Training
  else
    (* Check if already deployed *)
    let isDeployed :=
      existsb
        (fun mission =>
           isActive (status mission)
           && arrayIncludes (assignedPersonnel mission) (DataParser.id p))
        missions in
    if isDeployed then Deployed else Available.

Definition personnelWithReadiness : list PersonnelWithReadiness :=
  List.map
    (fun p =>
       {| person := p;
          readinessScore := DataParser.calculateReadinessScore p;
          availabilityStatus := getAvailabilityStatus p;
          lastDeploymentDays := DataParser.daysSinceDeployment now dateParse p |})
    data.

Definition suitable (mission : Mission) (p : PersonnelWithReadiness) : bool :=
  let matchesSpecialization :=
    (length (requiredSpecializations mission) =? 0)%nat
    || arrayIncludes (requiredSpecializations mission)
         (DataParser.specialization (person p)) in
  let available := isAvailable (availabilityStatus p) in
  let hasMinReadiness := (70 <=? readinessScore p)%Z in
  let searchMatch :=
    String.eqb searchTerm EmptyString
    || includes (toLowerCase (DataParser.name (person p)))
         (toLowerCase searchTerm)
    || includes (toLowerCase (DataParser.specialization (person p)))
         (toLowerCase searchTerm) in
  let specFilter :=
    String.eqb filterSpecialization "all"
    || String.eqb (DataParser.specialization (person p)) filterSpecialization in
  matchesSpecialization && available && hasMinReadiness && searchMatch
  && specFilter.

Definition byReadinessDescending (a b : PersonnelWithReadiness) : Q :=
  inject_Z (readinessScore b - readinessScore a).

Definition getSuitablePersonnel (mission : Mission)
  : list PersonnelWithReadiness :=
  sort byReadinessDescending (List.filter (suitable mission) personnelWithReadiness).

End Candidates.

(** The form state [newMission : Partial<Mission>]: the texts are empty
    until typed, the numbers are what [parseInt] made of the input ([None]
    for [NaN]). *)
Record NewMission : Type := {
  newName : string;
  newType : string;
  newPriority : Priority;
  newStartDate : string;
  newDuration : option Z;
  newRequiredPersonnel : option Z;
  newRequiredSpecializations : list string;
  newLocation : string;
  newDescription : string
}.

Definition createMission (newMission : NewMission) (missions : list Mission)
  : list Mission :=
  if String.eqb (newName newMission) EmptyString
     || String.eqb (newType newMission) EmptyString
     || String.eqb (newStartDate newMission) EmptyString
  then missions
  else
    let mission :=
      {| id := "M" ++ padStart 3 "0" (stringOfNat (length missions + 1));
         name := newName newMission;
         type := newType newMission;
         priority := newPriority newMission;
         startDate := newStartDate newMission;
         duration := TrainingManagement.numberOr (newDuration newMission) 30;
         requiredPersonnel :=
           TrainingManagement.numberOr (newRequiredPersonnel newMission) 10;
         requiredSpecializations := newRequiredSpecializations newMission;
         status := Planning;
         assignedPersonnel := [];
         location := TrainingManagement.stringOr (newLocation newMission)
                       EmptyString;
         description := TrainingManagement.stringOr (newDescription newMission)
                          EmptyString |} in
    (missions ++ [mission])%list.

(** The operations on the store, and the states they reach. *)
Inductive Action : Type :=
  | Assign (missionId personnelId : string)
  | Remove (missionId personnelId : string)
  | Create (newMission : NewMission).

Definition step (s : list Mission) (a : Action) : list Mission :=
  match a with
  | Assign missionId personnelId => assignPersonnelToMission missionId personnelId s
  | Remove missionId personnelId => removePersonnelFromMission missionId personnelId s
  | Create newMission => createMission newMission s
  end.

Definition run (actions : list Action) : list Mission :=
  fold_left step actions initialMissions.

(** Summary statistics. *)
Definition totalMissions (missions : list Mission) : nat := length missions.

Definition activeMissions (missions : list Mission) : nat :=
  length (List.filter (fun m => isActive (status m)) missions).

Definition availablePersonnel (l : list PersonnelWithReadiness) : nat :=
  length (List.filter (fun p => isAvailable (availabilityStatus p)) l).

End MissionDeployment.

(** ** components/utils/authService.ts *)

Module AuthService.
Import JS.

(** [interface User] *)
Record User : Type := {
  id : string;
  username : string;
  email : string;
  fullName : string;
  rank : option string;
  department : option string;
  createdAt : string
}.

(** [User & { password: string }], as the store keeps a user. *)
Record StoredUser : Type := {
  user : User;
  password : string
}.

(** [interface UserData] *)
Record UserData : Type := {
  personnelData : list (gmap string value);
  uploadDate : string
}.

(** [{ success, message, user? }] *)
Record Result : Type := {
  success : bool;
  message : string;
  resultUser : option User
}.

(** The argument of [register]. *)
Record Registration : Type := {
  newUsername : string;
  newEmail : string;
  newPassword : string;
  newFullName : string;
  newRank : option string;
  newDepartment : option string
}.

(** The three items of [localStorage], each read through [JSON.parse] and
    written through [JSON.stringify]; an item never written reads as the
    empty object, or as [null] for the current user.  The users are kept in
    the order of their insertion, which is the order [Object.values]
    follows (a generated id is not an array index). *)
Record Storage : Type := {
  iaf_users : list (string * StoredUser);
  iaf_current_user : option User;
  iaf_user_data : gmap string UserData
}.

Definition emptyStorage : Storage :=
  {| iaf_users := []; iaf_current_user := None; iaf_user_data := ∅ |}.

Definition getUsers (st : Storage) : list (string * StoredUser) :=
  iaf_users st.

Definition saveUsers (users : list (string * StoredUser)) (st : Storage)
  : Storage :=
  {| iaf_users := users;
     iaf_current_user := iaf_current_user st;
     iaf_user_data := iaf_user_data st |}.

(** [Object.values(users)] *)
Definition values (users : list (string * StoredUser)) : list StoredUser :=
  List.map snd users.

(** [btoa(password + 'iaf_salt_2024')] *)
Definition hashPassword (pw : string) : string :=
  btoa (pw ++ "iaf_salt_2024").

(** [register]; the id that [generateId] draws and the date of creation
    are given. *)
Definition register (userId now : string) (userData : Registration)
  (st : Storage) : Result * Storage :=
  let users := getUsers st in
  (* Check if username or email already exists *)
  let existingUser :=
    find (fun u => String.eqb (username (user u)) (newUsername userData)
                   || String.eqb (email (user u)) (newEmail userData))
      (values users) in
  match existingUser with
  | Some _ =>
      ({| success := false; message := "Username or email already exists";
          resultUser := None |}, st)
  | None =>
      let userWithoutPassword :=
        {| id := userId;
           username := newUsername userData;
           email := newEmail userData;
           fullName := newFullName userData;
           rank := newRank userData;
           department := newDepartment userData;
           createdAt := now |} in
      let newUser :=
        {| user := userWithoutPassword;
           password := hashPassword (newPassword userData) |} in
      ({| success := true; message := "Registration successful";
          resultUser := Some userWithoutPassword |},
       saveUsers (setProp userId newUser users) st)
  end.

(** [login] *)
Definition login (name pw : string) (st : Storage) : Result * Storage :=
  let users := getUsers st in
  match find (fun u => String.eqb (username (user u)) name) (values users) with
  | Some u =>
      if negb (String.eqb (password u) (hashPassword pw))
      then ({| success := false; message := "Invalid username or password";
               resultUser := None |}, st)
      else ({| success := true; message := "Login successful";
               resultUser := Some (user u) |},
            {| iaf_users := iaf_users st;
               iaf_current_user := Some (user u);
               iaf_user_data := iaf_user_data st |})
  | None =>
      ({| success := false; message := "Invalid username or password";
          resultUser := None |}, st)
  end.

Definition getCurrentUser (st : Storage) : option User := iaf_current_user st.

Definition logout (st : Storage) : Storage :=
  {| iaf_users := iaf_users st;
     iaf_current_user := None;
     iaf_user_data := iaf_user_data st |}.

Definition getAllUserData (st : Storage) : gmap string UserData :=
  iaf_user_data st.

(** [saveUserData]; the date of the upload is given. *)
Definition saveUserData (now userId : string)
  (data : list (gmap string value)) (st : Storage) : Storage :=
  let allUserData := getAllUserData st in
  {| iaf_users := iaf_users st;
     iaf_current_user := iaf_current_user st;
     iaf_user_data :=
       <[userId := {| personnelData := data; uploadDate := now |}]>
         allUserData |}.

(** [getUserData]: [allUserData[userId] || null] *)
Definition getUserData (userId : string) (st : Storage) : option UserData :=
  getAllUserData st !! userId.

Definition isAuthenticated (st : Storage) : bool :=
  match getCurrentUser st with Some _ => true | None => false end.

End AuthService.

(** ** App.tsx, with the submit handlers of the login form, the
       registration form and the upload page *)

Module App.
Import JS.

Inductive AuthView : Type := LoginView | RegisterView.

(** The state of the [App] component. *)
Record State : Type := {
  currentUser : option AuthService.User;
  authView : AuthView;
  personnelData : list (gmap string value);
  isDataLoaded : bool;
  activeTab : string
}.

Definition initialState : State :=
  {| currentUser := None; authView := LoginView; personnelData := [];
     isDataLoaded := false; activeTab := "overview" |}.

(** What [App] renders. *)
Inductive Screen : Type :=
  | LoginScreen
  | RegisterScreen
  | UploadScreen
  | Dashboard.

Definition screen (app : State) : Screen :=
  match currentUser app with
  | None =>
      match authView app with
      | LoginView => LoginScreen
      | RegisterView => RegisterScreen
      end
  | Some _ => if isDataLoaded app then Dashboard else UploadScreen
  end.

Definition setCurrentUser (u : option AuthService.User) (app : State)
  : State :=
  {| currentUser := u; authView := authView app;
     personnelData := personnelData app; isDataLoaded := isDataLoaded app;
     activeTab := activeTab app |}.

(** [setPersonnelData(data); setIsDataLoaded(true)] *)
Definition handleDataUploaded (data : list (gmap string value)) (app : State)
  : State :=
  {| currentUser := currentUser app; authView := authView app;
     personnelData := data; isDataLoaded := true;
     activeTab := activeTab app |}.

(** Load existing data if available. *)
Definition loadUserData (st : AuthService.Storage) (u : AuthService.User)
  (app : State) : State :=
  match AuthService.getUserData (AuthService.id u) st with
  | Some userData =>
      if (0 <? length (AuthService.personnelData userData))%nat
      then handleDataUploaded (AuthService.personnelData userData) app
      else app
  | None => app
  end.

(** The effect run on mount: check for an existing session. *)
Definition onMount (st : AuthService.Storage) (app : State) : State :=
  match AuthService.getCurrentUser st with
  | Some u => loadUserData st u (setCurrentUser (Some u) app)
  | None => app
  end.

Definition handleLogin (st : AuthService.Storage) (u : AuthService.User)
  (app : State) : State :=
  loadUserData st u (setCurrentUser (Some u) app).

Definition handleRegister (u : AuthService.User) (app : State) : State :=
  setCurrentUser (Some u) app.

Definition handleLogout (st : AuthService.Storage) (app : State)
  : AuthService.Storage * State :=
  (AuthService.logout st,
   {| currentUser := None; authView := authView app; personnelData := [];
      isDataLoaded := false; activeTab := "overview" |}).

(** The button [Upload New Data]. *)
Definition uploadNewData (app : State) : State :=
  {| currentUser := currentUser app; authView := authView app;
     personnelData := []; isDataLoaded := false;
     activeTab := activeTab app |}.

(** [LoginForm.handleSubmit]: the storage, the state of [App] and the
    error the form shows. *)
Definition submitLogin (name pw : string) (st : AuthService.Storage)
  (app : State) : AuthService.Storage * State * string :=
  let '(result, st') := AuthService.login name pw st in
  match AuthService.success result, AuthService.resultUser result with
  | true, Some u => (st', handleLogin st' u app, EmptyString)
  | _, _ => (st', app, AuthService.message result)
  end.

(** The fields of the registration form. *)
Record RegisterFormData : Type := {
  formUsername : string;
  formEmail : string;
  formPassword : string;
  formConfirmPassword : string;
  formFullName : string;
  formRank : string;
  formDepartment : string
}.

(** [s || undefined] *)
Definition orUndefined (s : string) : option string :=
  if String.eqb s EmptyString then None else Some s.

(** [RegisterForm.handleSubmit]; the id and the date that [register] draws
    are given. *)
Definition submitRegister (userId now : string) (formData : RegisterFormData)
  (st : AuthService.Storage) (app : State)
  : AuthService.Storage * State * string :=
  if negb (String.eqb (formPassword formData) (formConfirmPassword formData))
  then (st, app, "Passwords do not match")
  else if (String.length (formPassword formData) <? 6)%nat
  then (st, app, "Password must be at least 6 characters long")
  else
    let '(result, st') :=
      AuthService.register userId now
        {| AuthService.newUsername := formUsername formData;
           AuthService.newEmail := formEmail formData;
           AuthService.newPassword := formPassword formData;
           AuthService.newFullName := formFullName formData;
           AuthService.newRank := orUndefined (formRank formData);
           AuthService.newDepartment := orUndefined (formDepartment formData) |}
        st in
    match AuthService.success result, AuthService.resultUser result with
    | true, Some u => (st', handleRegister u app, EmptyString)
    | _, _ => (st', app, AuthService.message result)
    end.

Fixpoint endsWith (s suffix : string) : bool :=
  String.eqb s suffix ||
  match s with
  | EmptyString => false
  | String _ r => endsWith r suffix
  end.

(** [file.name.match(/\.(csv|xlsx?)$/i)] *)
Definition acceptedName (fileName : string) : bool :=
  let n := toLowerCase fileName in
  endsWith n ".csv" || endsWith n ".xls" || endsWith n ".xlsx".

(** [FileUploadPage.handleFileUpload] for a file of a given name and
    text, by the user signed in; the oracle of the parser and the date of
    the upload are given.  The state of [App] is the one after the delay
    that precedes [onDataUploaded]. *)
Definition handleFileUpload (rng : nat -> Q) (now : string)
  (u : AuthService.User) (fileName text : string)
  (st : AuthService.Storage) (app : State)
  : AuthService.Storage * State * string :=
  if negb (acceptedName fileName)
  then (st, app, "Please upload a CSV or Excel file")
  else
    match DataParser.parseCSVData rng text with
    | inr data =>
        (* Save data for the current user *)
        (AuthService.saveUserData now (AuthService.id u) data st,
         handleDataUploaded data app, EmptyString)
    | inl _ =>
        (st, app,
         "Error parsing file. Please ensure it contains valid personnel data.")
    end.

(** [FileUploadPage.loadExistingData] *)
Definition loadExistingData (u : AuthService.User)
  (st : AuthService.Storage) (app : State) : State :=
  loadUserData st u app.

End App.

(** ** components/PersonnelOverview.tsx *)

Module PersonnelOverview.
Import JS.

Section View.

Variable data : list DataParser.PersonnelData.
(** The component state. *)
Variable searchTerm : string.
Variable filterRank : string.
Variable filterSpecialization : string.
Variable currentPage : Z.

Definition itemsPerPage : Z := 10.

(** Calculate statistics. *)
Definition totalPersonnel : nat := length data.

Definition activePersonnel : nat :=
  length
    (List.filter
       (fun p => String.eqb (toLowerCase (DataParser.missionReadiness p)) "ready")
       data).

Definition highPerformers : nat :=
  length (List.filter (fun p => geb (DataParser.trainingScore p) 85) data).

Definition leadershipCandidates : nat :=
  length
    (List.filter
       (fun p =>
          String.eqb (toLowerCase (DataParser.leadershipPotential p)) "high")
       data).

(** Get unique values for filters. *)
Definition ranks : list string :=
  sort compareStrings (unique (List.map DataParser.rank data)).

Definition specializations : list string :=
  sort compareStrings (unique (List.map DataParser.specialization data)).

(** Filter and search data. *)
Definition matches (person : DataParser.PersonnelData) : bool :=
  let matchesSearch :=
    includes (toLowerCase (DataParser.name person)) (toLowerCase searchTerm)
    || includes (toLowerCase (DataParser.id person)) (toLowerCase searchTerm)
    || includes (toLowerCase (DataParser.specialization person))
         (toLowerCase searchTerm) in
  let matchesRank :=
    String.eqb filterRank "all"
    || String.eqb (DataParser.rank person) filterRank in
  let matchesSpecialization :=
    String.eqb filterSpecialization "all"
    || String.eqb (DataParser.specialization person) filterSpecialization in
  matchesSearch && matchesRank && matchesSpecialization.

Definition filteredData : list DataParser.PersonnelData :=
  List.filter matches data.

(** Pagination. *)
Definition totalPages : Z :=
  ceil (inject_Z (Z.of_nat (length filteredData)) / inject_Z itemsPerPage).

Definition startIndex : Z := ((currentPage - 1) * itemsPerPage)%Z.

Definition paginatedData : list DataParser.PersonnelData :=
  slice startIndex (startIndex + itemsPerPage) filteredData.

(** The updaters of the buttons [Previous] and [Next]. *)
Definition previousPage (prev : Z) : Z := Z.max (prev - 1) 1.

Definition nextPage (prev : Z) : Z := Z.min (prev + 1) totalPages.

End View.

End PersonnelOverview.

(** ** components/PredictiveAnalytics.tsx *)

Module PredictiveAnalytics.
Import JS.

(** An element of [attritionRisks]. *)
Record Assessed : Type := {
  person : DataParser.PersonnelData;
  attritionRisk : DataParser.AttritionRisk;
  readinessScore : Z
}.

(** An element of [leadershipPipeline]. *)
Record Candidate : Type := {
  candidate : DataParser.PersonnelData;
  candidateReadiness : Z;
  promotionReadiness : string
}.

(** An element of [trainingPriorities]. *)
Record Priority : Type := {
  training : string;
  count : Z;
  priority : Q
}.

(** [skillGaps] *)
Record SkillGaps : Type := {
  expert : Q;
  advanced : Q;
  intermediate : Q;
  beginner : Q
}.

(** An element of [retirementForecast]. *)
Record Retiring : Type := {
  retiring : DataParser.PersonnelData;
  yearsToRetirement : Q;
  retirementRisk : DataParser.AttritionRisk
}.

(** The accumulator of a specialization in [specializationReadiness]. *)
Record Tally : Type := {
  total : Z;
  readinessSum : Z;
  tallyCount : Z
}.

(** An element of [specializationData]. *)
Record SpecializationReadiness : Type := {
  specialization : string;
  avgReadiness : Q;
  personnel : Z
}.

(** The name under which a risk is a property of [riskDistribution]. *)
Definition riskName (r : DataParser.AttritionRisk) : string :=
  match r with
  | DataParser.Low => "Low"
  | DataParser.Medium => "Medium"
  | DataParser.High => "High"
  end.

Section Analytics.

Variable now : Z.
Variable dateParse : string -> option Z.
Variable data : list DataParser.PersonnelData.
Variable selectedSpecialization : string.

Definition filteredData : list DataParser.PersonnelData :=
  if String.eqb selectedSpecialization "all" then data
  else List.filter
         (fun p => String.eqb (DataParser.specialization p)
                     selectedSpecialization)
         data.

(** The size of the filtered population, as a number. *)
Definition population : Q := inject_Z (Z.of_nat (length filteredData)).

(** Attrition risk analysis. *)
Definition attritionRisks : list Assessed :=
  List.map
    (fun p =>
       {| person := p;
          attritionRisk := DataParser.predictAttritionRisk p;
          readinessScore := DataParser.calculateReadinessScore p |})
    filteredData.

Definition riskDistribution : list (string * Z) :=
  fold_left
    (fun acc a => WorkforceAnalytics.increment (riskName (attritionRisk a)) acc)
    attritionRisks [].

(** Leadership pipeline. *)
Definition promotion (p : DataParser.PersonnelData) : string :=
  if geb (DataParser.experience p) 5 && geb (DataParser.trainingScore p) 80
  then "Ready"
  else if geb (DataParser.experience p) 3
          && geb (DataParser.trainingScore p) 70
  then "Developing"
  else "Not Ready".

Definition byReadinessDescending (a b : Candidate) : Q :=
  inject_Z (candidateReadiness b - candidateReadiness a).

Definition leadershipPipeline : list Candidate :=
  sort byReadinessDescending
    (List.map
       (fun p =>
          {| candidate := p;
             candidateReadiness := DataParser.calculateReadinessScore p;
             promotionReadiness := promotion p |})
       (List.filter
          (fun p =>
             String.eqb (toLowerCase (DataParser.leadershipPotential p)) "high")
          filteredData)).

(** Training needs analysis. *)
Definition trainingNeeds : list (string * Z) :=
  fold_left
    (fun acc p =>
       fold_left (fun acc rec => WorkforceAnalytics.increment rec acc)
         (DataParser.generateTrainingRecommendations now dateParse p) acc)
    filteredData [].

Definition byCountDescending (a b : Priority) : Q :=
  inject_Z (count b - count a).

Definition trainingPriorities : list Priority :=
  slice 0 8
    (sort byCountDescending
       (List.map
          (fun '(t, c) =>
             {| training := t; count := c;
                priority := inject_Z c / population |})
          trainingNeeds)).

(** Skill gap analysis. *)
Definition skillLevels : list (string * Z) :=
  WorkforceAnalytics.groupCounts DataParser.skillLevel filteredData.

(** [(skillLevels[level] || 0) / filteredData.length * 100] *)
Definition gap (level : string) : Q :=
  inject_Z (match getProp level skillLevels with
            | Some c => if (c =? 0)%Z then 0%Z else c
            | None => 0%Z
            end)
  / population * 100.

Definition skillGaps : SkillGaps :=
  {| expert := gap "Expert";
     advanced := gap "Advanced";
     intermediate := gap "Intermediate";
     beginner := gap "Beginner" |}.

(** Retirement forecast. *)
Definition nearRetirement (p : DataParser.PersonnelData) : bool :=
  geb (DataParser.age p) 45 || geb (DataParser.experience p) 20.

Definition riskOfAge (p : DataParser.PersonnelData) : DataParser.AttritionRisk :=
  if geb (DataParser.age p) 55 then DataParser.High
  else if geb (DataParser.age p) 50 then DataParser.Medium
  else DataParser.Low.

Definition byYearsAscending (a b : Retiring) : Q :=
  yearsToRetirement a - yearsToRetirement b.

Definition retirementForecastAll : list Retiring :=
  sort byYearsAscending
    (List.map
       (fun p =>
          {| retiring := p;
             yearsToRetirement := Qmax 1 (60 - DataParser.age p);
             retirementRisk := riskOfAge p |})
       (List.filter nearRetirement filteredData)).

(** Deployment readiness forecast. *)
Definition addReadiness (spec : string) (readiness : Z)
  (acc : list (string * Tally)) : list (string * Tally) :=
  let acc :=
    match getProp spec acc with
    | Some _ => acc
    | None => setProp spec {| total := 0; readinessSum := 0; tallyCount := 0 |} acc
    end in
  match getProp spec acc with
  | Some t =>
      setProp spec
        {| total := total t;
           readinessSum := (readinessSum t + readiness)%Z;
           tallyCount := (tallyCount t + 1)%Z |}
        acc
  | None => acc
  end.

Definition specializationReadiness : list (string * Tally) :=
  fold_left
    (fun acc p =>
       addReadiness (DataParser.specialization p)
         (DataParser.calculateReadinessScore p) acc)
    filteredData [].

Definition byAverageDescending (a b : SpecializationReadiness) : Q :=
  avgReadiness b - avgReadiness a.

Definition specializationData : list SpecializationReadiness :=
  sort byAverageDescending
    (List.map
       (fun '(spec, t) =>
          {| specialization := spec;
             avgReadiness := inject_Z (readinessSum t) / inject_Z (tallyCount t);
             personnel := tallyCount t |})
       specializationReadiness).

(** What [useMemo] returns of the two lists that are cut. *)
Definition leadershipPipelineShown : list Candidate :=
  slice 0 10 leadershipPipeline.

Definition retirementForecast : list Retiring :=
  slice 0 15 retirementForecastAll.

End Analytics.

End PredictiveAnalytics.

(** ** components/MedicalReadiness.tsx *)

Module MedicalReadiness.
Import JS.

Inductive RecordType : Type := Annual | Deployment | Incident | FollowUp.
Inductive MedicalStatus : Type := Fit | LimitedDuty | UnderReview | Unfit.

(** [interface MedicalRecord] *)
Record MedicalRecord : Type := {
  id : string;
  personnelId : string;
  date : string;
  type : RecordType;
  status : MedicalStatus;
  officer : string;
  notes : string;
  nextDue : string;
  restrictions : option (list string)
}.

(** [data[i]?.id || fallback] *)
Definition idAt (data : list DataParser.PersonnelData) (i : nat)
  (fallback : string) : string :=
  match data !! i with
  | Some p =>
      if String.eqb (DataParser.id p) EmptyString then fallback
      else DataParser.id p
  | None => fallback
  end.

(** The initial state of [useState<MedicalRecord[]>]. *)
Definition initialMedicalRecords (data : list DataParser.PersonnelData)
  : list MedicalRecord :=
  [ {| id := "MR001"; personnelId := idAt data 0 "IAF0001";
       date := "2024-01-15"; type := Annual; status := Fit;
       officer := "Wg Cdr Dr. Sharma";
       notes := "All parameters normal. Cleared for all duties.";
       nextDue := "2025-01-15"; restrictions := None |};
    {| id := "MR002"; personnelId := idAt data 1 "IAF0002";
       date := "2024-01-20"; type := Deployment; status := LimitedDuty;
       officer := "Sqn Ldr Dr. Patel";
       notes := "Minor injury to left shoulder. Limited to ground duties.";
       nextDue := "2024-03-20";
       restrictions := Some ["No flying duties"; "No heavy lifting"] |} ].

(** The accumulator of an age group in [ageGroups]. *)
Record Health : Type := {
  total : Z;
  fit : Z
}.

(** An element of [ageHealthData]; [fitnessRate] is the number of tenths
    that [toFixed(1)] prints. *)
Record AgeHealth : Type := {
  group : string;
  groupTotal : Z;
  groupFit : Z;
  fitnessRate : Z
}.

(** The form state [newRecord : Partial<MedicalRecord>]. *)
Record NewRecord : Type := {
  newType : RecordType;
  newStatus : MedicalStatus;
  newOfficer : string;
  newNotes : string;
  newRestrictions : option (list string)
}.

Section Component.

Variable data : list DataParser.PersonnelData.
(** The component state. *)
Variable searchTerm : string.
Variable filterStatus : string.
(** [new Date(s).getTime()]; [None] is the [NaN] of an invalid date. *)
Variable dateParse : string -> option Z.
(** [new Date().toISOString().split('T')[0]] *)
Variable today : string.
(** [getNextDueDate]: today moved by a year for an annual examination, by
    three months for a follow-up and by six months otherwise. *)
Variable getNextDueDate : RecordType -> string.

(** Medical status distribution. *)
Definition statusDistribution : list (string * Z) :=
  WorkforceAnalytics.groupCounts DataParser.medicalStatus data.

Definition statusData : list WorkforceAnalytics.Share :=
  WorkforceAnalytics.distribution WorkforceAnalytics.same
    DataParser.medicalStatus data.

(** Age group health analysis. *)
Definition addHealth (person : DataParser.PersonnelData)
  (acc : list (string * Health)) : list (string * Health) :=
  let g := WorkforceAnalytics.ageGroup person in
  let acc :=
    match getProp g acc with
    | Some _ => acc
    | None => setProp g {| total := 0; fit := 0 |} acc
    end in
  let acc :=
    match getProp g acc with
    | Some h => setProp g {| total := (total h + 1)%Z; fit := fit h |} acc
    | None => acc
    end in
  if String.eqb (toLowerCase (DataParser.medicalStatus person)) "fit"
  then match getProp g acc with
       | Some h => setProp g {| total := total h; fit := (fit h + 1)%Z |} acc
       | None => acc
       end
  else acc.

Definition ageGroups : list (string * Health) :=
  fold_left (fun acc person => addHealth person acc) data [].

Definition ageHealthData : list AgeHealth :=
  List.map
    (fun '(g, h) =>
       {| group := g; groupTotal := total h; groupFit := fit h;
          fitnessRate :=
            toFixed1 (inject_Z (fit h) / inject_Z (total h) * 100) |})
    ageGroups.

(** Personnel needing medical attention. *)
Definition concern (person : DataParser.PersonnelData) : bool :=
  negb (String.eqb (toLowerCase (DataParser.medicalStatus person)) "fit")
  || gtb (DataParser.age person) 50
  || String.eqb (toLowerCase (DataParser.missionReadiness person)) "not ready".

Definition medicalConcerns : list DataParser.PersonnelData :=
  List.filter concern data.

(** Deployment readiness by medical status. *)
Definition deploymentFit : nat :=
  length
    (List.filter
       (fun p =>
          String.eqb (toLowerCase (DataParser.medicalStatus p)) "fit"
          && String.eqb (toLowerCase (DataParser.missionReadiness p)) "ready")
       data).

(** [((statusDistribution['Fit'] || 0) / data.length * 100).toFixed(1)] *)
Definition fitnessRateOverall : Z :=
  toFixed1
    (inject_Z (match getProp "Fit" statusDistribution with
               | Some c => if (c =? 0)%Z then 0%Z else c
               | None => 0%Z
               end)
     / inject_Z (Z.of_nat (length data)) * 100).

(** Filter personnel based on search and status. *)
Definition matches (person : DataParser.PersonnelData) : bool :=
  let matchesSearch :=
    String.eqb searchTerm EmptyString
    || includes (toLowerCase (DataParser.name person)) (toLowerCase searchTerm)
    || includes (toLowerCase (DataParser.id person)) (toLowerCase searchTerm) in
  let matchesStatus :=
    String.eqb filterStatus "all"
    || String.eqb (DataParser.medicalStatus person) filterStatus in
  matchesSearch && matchesStatus.

Definition filteredPersonnel : list DataParser.PersonnelData :=
  List.filter matches data.

(** Get medical records for a person; the comparator subtracts the times
    of two dates, both of them valid. *)
Definition byDateDescending (a b : MedicalRecord) : Q :=
  match dateParse (date b), dateParse (date a) with
  | Some tb, Some ta => inject_Z (tb - ta)
  | _, _ => 0
  end.

Definition getPersonnelRecords (medicalRecords : list MedicalRecord)
  (person : string) : list MedicalRecord :=
  sort byDateDescending
    (List.filter (fun record => String.eqb (personnelId record) person)
       medicalRecords).

Definition addMedicalRecord (selectedPersonnel : string)
  (newRecord : NewRecord) (medicalRecords : list MedicalRecord)
  : list MedicalRecord :=
  if String.eqb selectedPersonnel EmptyString
     || String.eqb (newOfficer newRecord) EmptyString
     || String.eqb (newNotes newRecord) EmptyString
  then medicalRecords
  else
    let record :=
      {| id := "MR" ++ padStart 3 "0"
                         (stringOfNat (length medicalRecords + 1));
         personnelId := selectedPersonnel;
         date := today;
         type := newType newRecord;
         status := newStatus newRecord;
         officer := newOfficer newRecord;
         notes := newNotes newRecord;
         nextDue := getNextDueDate (newType newRecord);
         restrictions :=
           match newRestrictions newRecord with
           | Some r => Some r
           | None => Some []
           end |} in
    (medicalRecords ++ [record])%list.

End Component.

End MedicalReadiness.

(** ** The specification's own wording of the scoring rules *)

Module Spec.
Import JS DataParser.

(** Two texts that differ at most in the case of their letters. *)
Definition sameIgnoringCase (a b : string) : bool :=
  String.eqb (toLowerCase a) (toLowerCase b).




(** [z] is [x] rounded to the nearest integer, a tie going up. *)
Definition nearestInteger (x : Q) (z : Z) : Prop :=
  (x - (1 # 2) < inject_Z z /\ inject_Z z <= x + (1 # 2))%Q.

(** Risk score >= 4 is High, >= 2 is Medium, else Low. *)
Definition tier (score : Z) : AttritionRisk :=
  if Z_le_dec 4 score then High
  else if Z_le_dec 2 score then Medium
  else Low.

(** A threshold pair read with the bands of whole numbers the text names:
    above [hi] adds 2, from [lo] to [hi] adds 1. *)
Definition bandPoints (lo hi x : Q) : Z :=
  if Qlt_le_dec hi x then 2
  else if Qlt_le_dec x lo then 0
  else 1.

(** A threshold pair as two strict comparisons: above [hi] adds 2, above
    [lo] (and up to [hi]) adds 1. *)
Definition thresholdPoints (lo hi x : Q) : Z :=
  if Qlt_le_dec hi x then 2
  else if Qlt_le_dec lo x then 1
  else 0.

Definition flagPoint (b : bool) : Z := if b then 1 else 0.

Definition otherPoints (p : PersonnelData) : Z :=
  flagPoint (negb (sameIgnoringCase (medicalStatus p) "fit"))
  + flagPoint (if Qlt_le_dec (trainingScore p) 70 then true else false)
  + flagPoint (sameIgnoringCase (missionReadiness p) "not ready").

(** The risk score with the bands 41-45 and 11-15. *)
Definition bandRiskScore (p : PersonnelData) : Z :=
  bandPoints 41 45 (age p) + bandPoints 11 15 (experience p) + otherPoints p.

(** The risk score with the comparisons [> 45], [> 40], [> 15], [> 10]. *)
Definition thresholdRiskScore (p : PersonnelData) : Z :=
  thresholdPoints 40 45 (age p) + thresholdPoints 10 15 (experience p)
  + otherPoints p.

(** A number of whole years. *)
Definition wholeNumber (x : Q) : Prop := exists n : Z, (x == inject_Z n)%Q.

(** A line without any character other than white space. *)
Fixpoint blank (line : string) : bool :=
  match line with
  | EmptyString => true
  | String c r => isWhiteSpace c && blank r
  end.

(** The lines of a text that are not blank. *)
Definition nonBlank (text : string) : list string :=
  List.filter (fun line => negb (blank line)) (split newline text).

Section Rules.

Variable now : Z.
Variable dateParse : string -> option Z.

(** None of the five rules of the training recommendations fires. *)
Definition noRuleFires (p : PersonnelData) : Prop :=
  (70 <= trainingScore p)%Q
  /\ sameIgnoringCase (skillLevel p) "Beginner" = false
  /\ sameIgnoringCase (skillLevel p) "Intermediate" = false
  /\ ~ (sameIgnoringCase (leadershipPotential p) "High" = true
        /\ (5 < experience p)%Q)
  /\ sameIgnoringCase (missionReadiness p) "Training" = false
  /\ (forall days, daysSinceDeployment now dateParse p = Some days ->
                   (days <= 365)%Z).

End Rules.

End Spec.

(** ** The vocabulary of the properties *)

Section RowVocabulary.
Import JS DataParser.

(** The number zero as a cell holds it. *)
Definition zero : value := VNum (Finite 0).

Fixpoint allLowerAlnum (s : string) : bool :=
  match s with
  | EmptyString => true
  | String c r => isLowerAlnum c && allLowerAlnum r
  end.

(** Every property name of a row object is a normalized header. *)
Definition normalized (record : object) : Prop :=
  forall k v, record !! k = Some v -> allLowerAlnum k = true.



End RowVocabulary.

Section CandidateVocabulary.

Definition neediestFirst (a b : DataParser.PersonnelData) : Prop :=
  (DataParser.trainingScore a <= DataParser.trainingScore b)%Q.

Definition mostCapableFirst (a b : MissionDeployment.PersonnelWithReadiness)
  : Prop :=
  (MissionDeployment.readinessScore b <= MissionDeployment.readinessScore a)%Z.

End CandidateVocabulary.

Section StoreVocabulary.
Import TrainingManagement.

Definition rosterSize (program : TrainingProgram) : Z :=
  Z.of_nat (length (enrolledPersonnel program)).

(** The roster does not exceed the capacity; a program created with a
    negative capacity has an empty roster. *)
Definition withinCapacity (program : TrainingProgram) : Prop :=
  (rosterSize program <= capacity program)%Z
  \/ enrolledPersonnel program = [].

(** What [enrollPersonnel] may do to one program. *)
Definition enrolledOrSame (programId personnelId : string)
  (old new : TrainingProgram) : Prop :=
  new = old
  \/ (id old = programId
      /\ (rosterSize old < capacity old)%Z
      /\ new = withEnrolledPersonnel old
                 (enrolledPersonnel old ++ [personnelId])).

End StoreVocabulary.

Section PercentageVocabulary.
Import JS WorkforceAnalytics.



(** The size of the population as a number, and the tenths of a percent
    that one record of it weighs. *)
Definition population (total : nat) : Q := inject_Z (Z.of_nat total).


End PercentageVocabulary.

(** ** Example inputs *)

Section Examples.
Import JS DataParser.

(** A fit and ready officer of forty and a half years with a training
    score of 60. *)
Definition halfYearOfficer : PersonnelData :=
  {| id := "IAF0001"; name := "Personnel 1"; rank := "Officer";
     branch := "Air Force"; specialization := "General";
     experience := 5; age := 81 # 2; medicalStatus := "Fit";
     trainingScore := 60; missionReadiness := "Ready";
     lastDeployment := "2024-01-01"; skillLevel := "Expert";
     leadershipPotential := "Low" |}.

(** A fit and ready officer of 41 years with 11 years of service. *)
Definition wholeYearOfficer : PersonnelData :=
  {| id := "IAF0002"; name := "Personnel 2"; rank := "Officer";
     branch := "Air Force"; specialization := "General";
     experience := 11; age := 41; medicalStatus := "Fit";
     trainingScore := 75; missionReadiness := "Ready";
     lastDeployment := "2024-01-01"; skillLevel := "Expert";
     leadershipPotential := "Low" |}.



(** The records of the boundary cases of the specification. *)
Definition officer (years old : Q) (medical : string) (score : Q)
  (readiness level : string) : PersonnelData :=
  {| id := "IAF0003"; name := "Personnel 3"; rank := "Officer";
     branch := "Air Force"; specialization := "General";
     experience := years; age := old; medicalStatus := medical;
     trainingScore := score; missionReadiness := readiness;
     lastDeployment := "2024-01-01"; skillLevel := level;
     leadershipPotential := "Low" |}.

(** A record known by its specialization only. *)
Definition ofSpecialization (s : string) : PersonnelData :=
  {| id := "IAF" ++ s; name := "Personnel " ++ s; rank := "Officer";
     branch := "Air Force"; specialization := s;
     experience := 5; age := 30; medicalStatus := "Fit";
     trainingScore := 75; missionReadiness := "Ready";
     lastDeployment := "2024-01-01"; skillLevel := "Expert";
     leadershipPotential := "Low" |}.

(** Twenty records of twenty specializations. *)
Definition twentySpecializations : list PersonnelData :=
  List.map ofSpecialization
    ["S01"; "S02"; "S03"; "S04"; "S05"; "S06"; "S07"; "S08"; "S09"; "S10";
     "S11"; "S12"; "S13"; "S14"; "S15"; "S16"; "S17"; "S18"; "S19"; "S20"].

(** The first of January 2024 read as a date, every other text being an
    invalid date; and the tenth of June 2024 as the present. *)
Definition newYearOnly (s : string) : option Z :=
  if String.eqb s "2024-01-01" then Some 1704067200000%Z else None.

Definition tenthOfJune : Z := 1717977600000.

(** The lines of an example, joined by line feeds. *)
Definition unlines (ls : list string) : string :=
  String.concat (String newline EmptyString) ls.

(** A field between double quotes. *)
Definition quoted (s : string) : string :=
  String quote (s ++ String quote EmptyString).

(** An oracle that always draws one half. *)
Definition halves : nat -> Q := fun _ => 1 # 2.



(** A header and one row whose training score is not a number. *)
Definition unparsableScoreText : string :=
  unlines ["id,Training Score"; "A1,abc"].

(** A header of two columns and a row whose first field is quoted and
    holds a comma. *)
Definition quotedCommaText : string :=
  unlines ["name,rank"; quoted "Doe, John" ++ ",Captain"].

(** A text with a header row only. *)
Definition headerOnlyText : string := unlines ["id,name,rank"; "   "].

End Examples.

(** A program of capacity two with two trainees. *)
Definition fullProgram : TrainingManagement.TrainingProgram :=
  {| TrainingManagement.id := "T009";
     TrainingManagement.name := "Night Operations";
     TrainingManagement.type := "Technical";
     TrainingManagement.duration := 7;
     TrainingManagement.capacity := 2;
     TrainingManagement.startDate := "2024-04-01";
     TrainingManagement.endDate := "2024-04-08";
     TrainingManagement.instructor := "TBD";
     TrainingManagement.description := EmptyString;
     TrainingManagement.prerequisites := [];
     TrainingManagement.targetSkillLevel := "Intermediate";
     TrainingManagement.enrolledPersonnel := ["IAF0001"; "IAF0002"];
     TrainingManagement.status := TrainingManagement.Planned |}.

(** ** The vocabulary of the further properties *)

Section DecimalVocabulary.
Import JS.

(** The number that a string of decimal digits denotes. *)
Fixpoint decimalFrom (acc : N) (s : string) : N :=
  match s with
  | EmptyString => acc
  | String c r => decimalFrom (10 * acc + (charCode c - 48))%N r
  end.

Definition decimalValue (s : string) : N := decimalFrom 0 s.

End DecimalVocabulary.

Section IngestionVocabulary.
Import JS DataParser.

(** The data lines that are kept, each with its index among the lines that
    are not blank: those with as many fields as there are headers. *)
Fixpoint acceptedRows (headers : list string) (i : nat) (lines : list string)
  : list (nat * string) :=
  match lines with
  | [] => []
  | line :: rest =>
      if (length (fields line) =? length headers)%nat
      then (i, line) :: acceptedRows headers (S i) rest
      else acceptedRows headers (S i) rest
  end.

(** The header row and the data rows of a text. *)
Definition headerFields (text : string) : list string :=
  fields (hd EmptyString (nonBlankLines text)).

Definition dataRows (text : string) : list (nat * string) :=
  acceptedRows (headerFields text) 1 (tl (nonBlankLines text)).

(** A record delivered for a row: the object literal of some state of
    the oracle. *)
Definition deliveredFor (rng : nat -> Q) (headers : list string)
  (row : nat * string) (r : object) : Prop :=
  exists k,
    r = fst (personnelRecord rng (fst row)
               (buildRecord headers (fields (snd row))) k).

(** The attributes of a personnel record. *)
Definition attributes : list string :=
  ["id"; "name"; "rank"; "branch"; "specialization"; "experience"; "age";
   "medicalStatus"; "trainingScore"; "missionReadiness"; "lastDeployment";
   "skillLevel"; "leadershipPotential"].

(** The default identifier of row [i]. *)
Definition defaultId (i : nat) : value :=
  VStr ("IAF" ++ padStart 4 "0" (stringOfNat i)).

End IngestionVocabulary.

(** ** Facts about the primitives *)

Section NumberFacts.
Import JS.

Lemma ltb_lt (a b : Q) : ltb a b = true <-> (a < b)%Q.
Proof.
  unfold ltb. rewrite negb_true_iff.
  destruct (Qle_bool b a) eqn:E.
  - apply Qle_bool_iff in E. split; [discriminate|].
    intros H. exfalso. exact (Qlt_not_le _ _ H E).
  - split; [|reflexivity]. intros _. apply Qnot_le_lt. intros H.
    apply Qle_bool_iff in H. congruence.
Qed.

Lemma ltb_ge (a b : Q) : ltb a b = false <-> (b <= a)%Q.
Proof.
  unfold ltb. rewrite negb_false_iff. apply Qle_bool_iff.
Qed.

Lemma gtb_lt (a b : Q) : gtb a b = true <-> (b < a)%Q.
Proof. unfold gtb. apply ltb_lt. Qed.

Lemma gtb_le (a b : Q) : gtb a b = false <-> (a <= b)%Q.
Proof. unfold gtb. apply ltb_ge. Qed.

Lemma geb_le (a b : Q) : geb a b = true <-> (b <= a)%Q.
Proof. unfold geb. apply Qle_bool_iff. Qed.


Lemma nearest_unique (x : Q) (z z' : Z) :
  Spec.nearestInteger x z -> Spec.nearestInteger x z' -> z = z'.
Proof.
  unfold Spec.nearestInteger. intros [H1 H2] [H3 H4].
  assert (A : (inject_Z z < inject_Z (z' + 1))%Q).
  { rewrite inject_Z_plus. change (inject_Z 1) with 1%Q. lra. }
  assert (B : (inject_Z z' < inject_Z (z + 1))%Q).
  { rewrite inject_Z_plus. change (inject_Z 1) with 1%Q. lra. }
  rewrite <- Zlt_Qlt in A, B. lia.
Qed.

End NumberFacts.

(** ** The scoring engine *)

Section Scoring.
Import JS DataParser.



Ltac split_comparisons :=
  repeat match goal with
  | |- context [gtb ?a ?b] =>
      let E := fresh "E" in
      destruct (gtb a b) eqn:E; [apply gtb_lt in E | apply gtb_le in E]
  | |- context [ltb ?a ?b] =>
      let E := fresh "E" in
      destruct (ltb a b) eqn:E; [apply ltb_lt in E | apply ltb_ge in E]
  | |- context [Qlt_le_dec ?a ?b] => destruct (Qlt_le_dec a b)
  end.

Lemma riskScore_thresholds (p : PersonnelData) :
  riskScore p = Spec.thresholdRiskScore p.
Proof.
  unfold riskScore, Spec.thresholdRiskScore, Spec.thresholdPoints,
    Spec.otherPoints, Spec.flagPoint, Spec.sameIgnoringCase.
  change (toLowerCase "fit") with "fit".
  change (toLowerCase "not ready") with "not ready".
  destruct (String.eqb (toLowerCase (medicalStatus p)) "fit");
  destruct (String.eqb (toLowerCase (missionReadiness p)) "not ready");
  cbn [negb];
  split_comparisons; try reflexivity; exfalso; lra.
Qed.

Lemma tier_thresholds (s : Z) :
  (if (4 <=? s)%Z then High else if (2 <=? s)%Z then Medium else Low)
  = Spec.tier s.
Proof.
  unfold Spec.tier.
  destruct (Z_le_dec 4 s), (Z_le_dec 2 s);
    destruct (Z.leb_spec 4 s), (Z.leb_spec 2 s); try reflexivity; lia.
Qed.

Lemma bands_of_whole_numbers (lo : Z) (hi x : Q) (n : Z) :
  (x == inject_Z n)%Q ->
  Spec.thresholdPoints (inject_Z lo) hi x
  = Spec.bandPoints (inject_Z (lo + 1)) hi x.
Proof.
  intros Hx. unfold Spec.thresholdPoints, Spec.bandPoints.
  destruct (Qlt_le_dec hi x); [reflexivity|].
  destruct (Qlt_le_dec (inject_Z lo) x) as [H|H];
    destruct (Qlt_le_dec x (inject_Z (lo + 1))) as [H'|H']; try reflexivity;
    exfalso; rewrite Hx in H, H';
    [ rewrite <- Zlt_Qlt in H, H' | rewrite <- Zle_Qle in H, H' ]; lia.
Qed.

(** C2, as the code has it.  The risk score of [predictAttritionRisk] is
    the sum of: 2 if age > 45, else 1 if age > 40; 2 if experience > 15,
    else 1 if experience > 10; 1 if the medical status is not fit; 1 if the
    training score is below 70; 1 if the mission readiness is not ready
    (texts compared without regard to case); the result is High from 4,
    Medium from 2 and Low below.  For whole numbers of years the two
    middle cases are the bands 41-45 and 11-15. *)
Theorem predictAttritionRisk_thresholds (p : PersonnelData) :
  riskScore p = Spec.thresholdRiskScore p
  /\ predictAttritionRisk p = Spec.tier (Spec.thresholdRiskScore p)
  /\ (Spec.wholeNumber (age p) -> Spec.wholeNumber (experience p) ->
      Spec.thresholdRiskScore p = Spec.bandRiskScore p).
Proof.
  split; [apply riskScore_thresholds|]. split.
  - unfold predictAttritionRisk. rewrite tier_thresholds.
    now rewrite riskScore_thresholds.
  - intros [a Ha] [e He].
    unfold Spec.thresholdRiskScore, Spec.bandRiskScore.
    change 40%Q with (inject_Z 40). change 10%Q with (inject_Z 10).
    rewrite (bands_of_whole_numbers 40 45 (age p) a Ha).
    rewrite (bands_of_whole_numbers 10 15 (experience p) e He).
    reflexivity.
Qed.

Lemma predictAttritionRisk_thresholds_witness :
  predictAttritionRisk wholeYearOfficer = Medium
  /\ Spec.bandRiskScore wholeYearOfficer = 2%Z.
Proof.
  destruct (predictAttritionRisk_thresholds wholeYearOfficer)
    as (_ & Htier & Hband).
  split.
  - rewrite Htier. reflexivity.
  - rewrite <- Hband.
    + reflexivity.
    + exists 41%Z. reflexivity.
    + exists 11%Z. reflexivity.
Defined.

(** C2, as the text has it, fails: at forty and a half years the code adds
    the point of the middle case, which the band 41-45 does not, and the
    tier differs. *)
Lemma predictAttritionRisk_band_counterexample :
  predictAttritionRisk halfYearOfficer = Medium
  /\ Spec.tier (Spec.bandRiskScore halfYearOfficer) = Low.
Proof. split; reflexivity. Qed.

(** The boundary cases of the specification. *)
Example readiness_of_the_best :
  calculateReadinessScore (officer 20 30 "Fit" 100 "Ready" "Expert") = 100%Z.
Proof. reflexivity. Qed.

Example readiness_of_the_unknown :
  calculateReadinessScore (officer 0 30 "?" 0 "?" "?") = 25%Z.
Proof. reflexivity. Qed.

Example attrition_high :
  predictAttritionRisk (officer 16 46 "Fit" 75 "Ready" "Expert") = High.
Proof. reflexivity. Qed.

Example attrition_low :
  predictAttritionRisk (officer 5 35 "Fit" 80 "Ready" "Expert") = Low.
Proof. reflexivity. Qed.

Example attrition_at_45_and_41 :
  riskScore (officer 5 45 "Fit" 80 "Ready" "Expert") = 1%Z
  /\ riskScore (officer 5 41 "Fit" 80 "Ready" "Expert") = 1%Z
  /\ riskScore (officer 5 40 "Fit" 80 "Ready" "Expert") = 0%Z.
Proof. repeat split; reflexivity. Qed.

End Scoring.

(** ** Training recommendations *)

Section Recommendations.
Import JS DataParser.

Variable now : Z.
Variable dateParse : string -> option Z.

Lemma fallback_nonempty (recommendations : list string) (r : string) :
  (if (length recommendations =? 0)%nat then push recommendations r
   else recommendations) <> [].
Proof. destruct recommendations; simpl; discriminate. Qed.

Lemma generateTrainingRecommendations_nonempty (p : PersonnelData) :
  generateTrainingRecommendations now dateParse p <> [].
Proof.
  unfold generateTrainingRecommendations. cbv zeta. apply fallback_nonempty.
Qed.

Lemma generateTrainingRecommendations_fallback (p : PersonnelData) :
  Spec.noRuleFires now dateParse p ->
  generateTrainingRecommendations now dateParse p = ["Maintenance Training"].
Proof.
  unfold Spec.noRuleFires, Spec.sameIgnoringCase.
  change (toLowerCase "Beginner") with "beginner".
  change (toLowerCase "Intermediate") with "intermediate".
  change (toLowerCase "High") with "high".
  change (toLowerCase "Training") with "training".
  intros (Hscore & Hbeg & Hint & Hlead & Htrain & Hdays).
  unfold generateTrainingRecommendations. cbv zeta.
  apply ltb_ge in Hscore. rewrite Hscore, Hbeg, Hint, Htrain.
  assert (Hl : String.eqb (toLowerCase (leadershipPotential p)) "high"
               && gtb (experience p) 5 = false).
  { destruct (String.eqb (toLowerCase (leadershipPotential p)) "high");
      [|reflexivity].
    destruct (gtb (experience p) 5) eqn:E; [|reflexivity].
    apply gtb_lt in E. exfalso. apply Hlead. now split. }
  rewrite Hl. cbn [orb].
  destruct (daysSinceDeployment now dateParse p) as [days|]; [|reflexivity].
  specialize (Hdays days eq_refl).
  destruct (Z.ltb_spec 365 days); [lia|reflexivity].
Qed.

End Recommendations.

(** C8.  Whatever the reference date, [generateTrainingRecommendations]
    returns a list that is not empty, and when none of the five rules
    fires the list is exactly [Maintenance Training]. *)
Theorem generateTrainingRecommendations_total
  (now : Z) (dateParse : string -> option Z) (p : DataParser.PersonnelData) :
  DataParser.generateTrainingRecommendations now dateParse p <> []
  /\ (Spec.noRuleFires now dateParse p ->
      DataParser.generateTrainingRecommendations now dateParse p
      = ["Maintenance Training"]).
Proof.
  split.
  - apply generateTrainingRecommendations_nonempty.
  - apply generateTrainingRecommendations_fallback.
Qed.

Lemma generateTrainingRecommendations_total_witness :
  DataParser.generateTrainingRecommendations tenthOfJune newYearOnly
    wholeYearOfficer = ["Maintenance Training"].
Proof.
  apply (proj2 (generateTrainingRecommendations_total tenthOfJune newYearOnly
                  wholeYearOfficer)).
  unfold Spec.noRuleFires.
  repeat split; try reflexivity.
  - unfold Qle; simpl; lia.
  - intros [H1 H2]. discriminate H1.
  - intros days H. vm_compute in H. injection H as <-. lia.
Defined.

(** ** Sorting *)

Section Sorting.
Import JS.

Context {A : Type} (compareFn : A -> A -> Q) (R : A -> A -> Prop).

Hypothesis before : forall x y, gtb (compareFn x y) 0 = false -> R x y.
Hypothesis after : forall x y, gtb (compareFn x y) 0 = true -> R y x.

Lemma sortInsert_HdRel (a x : A) (l : list A) :
  R a x -> HdRel R a l -> HdRel R a (sortInsert compareFn x l).
Proof.
  intros Hax Hal. destruct l as [|y r]; simpl.
  - now constructor.
  - destruct (gtb (compareFn x y) 0); constructor; [|exact Hax].
    now inversion Hal.
Qed.

Lemma sortInsert_Sorted (x : A) (l : list A) :
  Sorted R l -> Sorted R (sortInsert compareFn x l).
Proof.
  induction l as [|y r IH]; simpl; intros Hs.
  - repeat constructor.
  - destruct (gtb (compareFn x y) 0) eqn:E.
    + inversion Hs as [|? ? Hr Hy]; subst. constructor.
      * now apply IH.
      * apply sortInsert_HdRel; [now apply after | exact Hy].
    + constructor; [exact Hs|]. constructor. now apply before.
Qed.

Lemma sort_Sorted (l : list A) : Sorted R (sort compareFn l).
Proof.
  induction l as [|x l IH]; simpl.
  - constructor.
  - now apply sortInsert_Sorted.
Qed.

Lemma sortInsert_Permutation (x : A) (l : list A) :
  Permutation (x :: l) (sortInsert compareFn x l).
Proof.
  induction l as [|y r IH]; simpl.
  - reflexivity.
  - destruct (gtb (compareFn x y) 0).
    + rewrite perm_swap. now apply perm_skip.
    + reflexivity.
Qed.

Lemma sort_Permutation (l : list A) : Permutation l (sort compareFn l).
Proof.
  induction l as [|x l IH]; simpl.
  - reflexivity.
  - rewrite <- sortInsert_Permutation. now apply perm_skip.
Qed.

End Sorting.

Section Candidates.
Import JS.

Lemma neediestFirst_transitive :
  forall a b c, neediestFirst a b -> neediestFirst b c -> neediestFirst a c.
Proof. unfold neediestFirst. intros a b c H1 H2. lra. Qed.

Lemma mostCapableFirst_transitive :
  forall a b c,
    mostCapableFirst a b -> mostCapableFirst b c -> mostCapableFirst a c.
Proof. unfold mostCapableFirst. intros a b c H1 H2. lia. Qed.

Lemma byTrainingNeed_sorted (l : list DataParser.PersonnelData) :
  StronglySorted neediestFirst (sort TrainingManagement.byTrainingNeed l).
Proof.
  apply Sorted_StronglySorted; [exact neediestFirst_transitive|].
  apply sort_Sorted; intros x y H; unfold neediestFirst;
    unfold TrainingManagement.byTrainingNeed in H.
  - apply gtb_le in H. lra.
  - apply gtb_lt in H. lra.
Qed.

Lemma byReadinessDescending_sorted
  (l : list MissionDeployment.PersonnelWithReadiness) :
  StronglySorted mostCapableFirst
    (sort MissionDeployment.byReadinessDescending l).
Proof.
  apply Sorted_StronglySorted; [exact mostCapableFirst_transitive|].
  apply sort_Sorted; intros x y H; unfold mostCapableFirst;
    unfold MissionDeployment.byReadinessDescending in H.
  - apply gtb_le in H. change 0%Q with (inject_Z 0) in H.
    rewrite <- Zle_Qle in H. lia.
  - apply gtb_lt in H. change 0%Q with (inject_Z 0) in H.
    rewrite <- Zlt_Qlt in H. lia.
Qed.

End Candidates.

(** C6.  The candidates for a training program are listed by ascending
    training score (the neediest first) and the candidates for a mission
    by descending readiness score (the most capable first), for every
    collection of records, every program and every mission; each list
    holds exactly the candidates that pass its filter. *)
Theorem getSuitablePersonnel_sort_directions
  (now : Z) (dateParse : string -> option Z)
  (data : list DataParser.PersonnelData)
  (missions : list MissionDeployment.Mission)
  (searchTerm filterSpecialization : string)
  (program : TrainingManagement.TrainingProgram)
  (mission : MissionDeployment.Mission) :
  let trainees :=
    TrainingManagement.getSuitablePersonnel now dateParse data searchTerm
      filterSpecialization program in
  let crew :=
    MissionDeployment.getSuitablePersonnel now dateParse data missions
      searchTerm filterSpecialization mission in
  StronglySorted neediestFirst trainees
  /\ StronglySorted mostCapableFirst crew
  /\ Permutation trainees
       (List.filter
          (TrainingManagement.suitable now dateParse searchTerm
             filterSpecialization program) data)
  /\ Permutation crew
       (List.filter
          (MissionDeployment.suitable searchTerm filterSpecialization mission)
          (MissionDeployment.personnelWithReadiness now dateParse data
             missions)).
Proof.
  cbv zeta.
  unfold TrainingManagement.getSuitablePersonnel,
    MissionDeployment.getSuitablePersonnel.
  split; [apply byTrainingNeed_sorted|].
  split; [apply byReadinessDescending_sorted|].
  split; symmetry; apply sort_Permutation.
Qed.

(** ** The record normalizer: lines *)

Section Lines.
Import JS DataParser.

Lemma trimStart_blank (s : string) :
  Spec.blank s = true -> trimStart s = EmptyString.
Proof.
  induction s as [|c r IH]; simpl; [reflexivity|].
  destruct (isWhiteSpace c); simpl; [exact IH|discriminate].
Qed.

Lemma trimStart_nonblank (s : string) :
  Spec.blank s = false ->
  exists c r, trimStart s = String c r /\ isWhiteSpace c = false.
Proof.
  induction s as [|c r IH]; simpl; [discriminate|].
  destruct (isWhiteSpace c) eqn:E; simpl.
  - exact IH.
  - intros _. exists c, r. now split.
Qed.

Lemma trimEnd_nonspace (c : ascii) (r : string) :
  isWhiteSpace c = false -> trimEnd (String c r) <> EmptyString.
Proof.
  intros E. simpl. destruct (trimEnd r); [rewrite E|]; discriminate.
Qed.

Lemma trim_blank (s : string) :
  truthy (VStr (trim s)) = negb (Spec.blank s).
Proof.
  unfold trim. destruct (Spec.blank s) eqn:E.
  - now rewrite (trimStart_blank s E).
  - destruct (trimStart_nonblank s E) as (c & r & -> & Hc).
    pose proof (trimEnd_nonspace c r Hc) as H. cbn [truthy negb].
    destruct (trimEnd (String c r)); [congruence|reflexivity].
Qed.

Lemma nonBlankLines_nonBlank (text : string) :
  nonBlankLines text = Spec.nonBlank text.
Proof.
  unfold nonBlankLines, Spec.nonBlank. apply List.filter_ext.
  intros line. apply trim_blank.
Qed.

Lemma removeAll_removes (cls : ascii -> bool) (s : string) (c : ascii) :
  cls c = true -> ~ In c (list_ascii_of_string (removeAll cls s)).
Proof.
  intros Hc. induction s as [|d r IH]; simpl; [tauto|].
  destruct (cls d) eqn:E; [exact IH|]. simpl.
  intros [->|H]; [congruence|tauto].
Qed.

(** No field of a line holds a double-quote character. *)
Lemma fields_without_quotes (line f : string) :
  In f (fields line) -> ~ In quote (list_ascii_of_string f).
Proof.
  unfold fields. intros Hf. apply List.in_map_iff in Hf as (v & <- & _).
  apply removeAll_removes. apply Ascii.eqb_refl.
Qed.

End Lines.

(** C7.  [parseCSVData] is rejected with the malformed-input error exactly
    when the text has fewer than two lines that are not blank, and then no
    record at all is delivered; with two such lines or more it resolves. *)
Theorem parseCSVData_malformed (rng : nat -> Q) (text : string) :
  (DataParser.parseCSVData rng text = inl DataParser.MalformedInputError
   <-> (length (Spec.nonBlank text) < 2)%nat)
  /\ ((length (Spec.nonBlank text) < 2)%nat ->
      forall data, DataParser.parseCSVData rng text <> inr data)
  /\ ((2 <= length (Spec.nonBlank text))%nat ->
      exists data, DataParser.parseCSVData rng text = inr data).
Proof.
  unfold DataParser.parseCSVData. cbv zeta.
  rewrite nonBlankLines_nonBlank.
  destruct (Nat.ltb_spec (length (Spec.nonBlank text)) 2) as [H|H].
  - split; [split; [intros _; exact H | reflexivity]|].
    split; [intros _ data; discriminate | intros H'; lia].
  - split; [split; [discriminate | intros H'; lia]|].
    split; [intros H'; lia | intros _; eexists; reflexivity].
Qed.

(** ** The record normalizer: rows *)

Section Rows.
Import JS DataParser.

Lemma removeAll_keeps (cls : ascii -> bool) (s : string) :
  allLowerAlnum s = true -> allLowerAlnum (removeAll cls s) = true.
Proof.
  induction s as [|c r IH]; simpl; [reflexivity|].
  intros H. apply andb_prop in H as [Hc Hr].
  destruct (cls c); simpl; [now apply IH|].
  rewrite Hc. now apply IH.
Qed.

Lemma removeAll_others (s : string) :
  allLowerAlnum (removeAll (fun c => negb (isLowerAlnum c)) s) = true.
Proof.
  induction s as [|c r IH]; simpl; [reflexivity|].
  destruct (isLowerAlnum c) eqn:E; simpl; [now rewrite E|exact IH].
Qed.

Lemma normalizeHeader_allLowerAlnum (header : string) :
  allLowerAlnum (normalizeHeader header) = true.
Proof.
  unfold normalizeHeader. apply removeAll_keeps, removeAll_others.
Qed.

Lemma buildRecord_normalized (headers values : list string) :
  normalized (buildRecord headers values).
Proof.
  unfold buildRecord.
  assert (G : forall (l : list (string * string)) (acc : object),
             normalized acc ->
             normalized
               (fold_left
                  (fun (record : object) '(header, v) =>
                     let normalizedHeader := normalizeHeader header in
                     <[normalizedHeader := cellValue normalizedHeader v]> record)
                  l acc)).
  { induction l as [|[h v] l IH]; simpl; intros acc Hacc; [exact Hacc|].
    apply IH. intros k w Hk.
    apply lookup_insert_Some in Hk as [[<- _]|[_ Hk]].
    - apply normalizeHeader_allLowerAlnum.
    - exact (Hacc k w Hk). }
  apply G. intros k v Hk. rewrite lookup_empty in Hk. discriminate.
Qed.

Lemma normalized_absent (record : object) (k : string) :
  normalized record -> allLowerAlnum k = false -> record !! k = None.
Proof.
  intros Hn Hk. destruct (record !! k) as [v|] eqn:E; [|reflexivity].
  rewrite (Hn k v E) in Hk. discriminate.
Qed.

(** *** Object literals *)

Lemma objectLiteral_fold_other (props : list (string * option value))
  (acc : object) (k : string) :
  ~ In k (List.map fst props) ->
  fold_left
    (fun (o : object) '(k, v) =>
       match v with Some x => <[k := x]> o | None => delete k o end)
    props acc !! k = acc !! k.
Proof.
  revert acc. induction props as [|[k' v] props IH]; simpl; intros acc Hk;
    [reflexivity|].
  rewrite IH by tauto.
  assert (k' <> k) by tauto.
  destruct v; [now rewrite lookup_insert_ne | now rewrite lookup_delete_ne].
Qed.

Lemma objectLiteral_lookup (props : list (string * option value))
  (k : string) (v : option value) :
  List.NoDup (List.map fst props) -> In (k, v) props ->
  objectLiteral props !! k = v.
Proof.
  unfold objectLiteral. generalize (∅ : object).
  induction props as [|[k' v'] props IH]; simpl; intros acc Hnd Hin;
    [contradiction|].
  inversion Hnd as [|? ? Hk' Hnd']; subst.
  destruct Hin as [Heq|Hin].
  - injection Heq as -> ->.
    rewrite objectLiteral_fold_other by exact Hk'.
    destruct v; [apply lookup_insert_eq | apply lookup_delete_eq].
  - now apply IH.
Qed.

(** *** The defaults of [personnelRecord] *)

Section Oracle.

Variable rng : nat -> Q.
Hypothesis rng_range : forall k, (0 <= rng k < 1)%Q.

Lemma floor_scaled (n : Z) (k : nat) :
  (0 < n)%Z -> (0 <= floor (rng k * inject_Z n) < n)%Z.
Proof.
  intros Hn. destruct (rng_range k) as [H0 H1]. unfold floor.
  assert (Hq : (0 < inject_Z n)%Q).
  { change 0%Q with (inject_Z 0). now rewrite <- Zlt_Qlt. }
  split.
  - change 0%Z with (Qfloor 0). apply Qfloor_resp_le.
    apply Qmult_le_0_compat; [exact H0 | now apply Qlt_le_weak].
  - rewrite Zlt_Qlt.
    apply Qle_lt_trans with (y := (rng k * inject_Z n)%Q);
      [apply Qfloor_le|].
    apply Qlt_le_trans with (y := (1 * inject_Z n)%Q);
      [now apply Qmult_lt_compat_r|].
    rewrite Qmult_1_l. apply Qle_refl.
Qed.

Lemma randomInt_range (n base : Z) (k : nat) :
  (0 < n)%Z ->
  exists m, fst (randomInt rng n base k)
            = Some (VNum (Finite (inject_Z m)))
            /\ (base <= m <= base + n - 1)%Z.
Proof.
  intros Hn. exists (floor (rng k * inject_Z n) + base)%Z.
  split; [reflexivity|].
  pose proof (floor_scaled n k Hn). lia.
Qed.

End Oracle.

Ltac run_binds :=
  repeat match goal with
  | |- context [let '(_, _) := ?m in _] =>
      let E := fresh "E" in destruct m as [? ?] eqn:E
  end.

Lemma personnelRecord_spread (rng : nat -> Q) (i : nat) (record : object)
  (k : nat) (key : string) (v : value) :
  record !! key = Some v ->
  fst (personnelRecord rng i record k) !! key = Some v.
Proof.
  intros H. unfold personnelRecord, bind. run_binds. simpl.
  now apply lookup_union_Some_l.
Qed.

Lemma literal_keys_NoDup :
  List.NoDup
    ["id"; "name"; "rank"; "branch"; "specialization"; "experience"; "age";
     "medicalStatus"; "trainingScore"; "missionReadiness"; "lastDeployment";
     "skillLevel"; "leadershipPotential"].
Proof.
  apply NoDup_ListNoDup. apply (bool_decide_unpack _). vm_compute. exact I.
Qed.

Lemma personnelRecord_trainingScore (rng : nat -> Q) (i : nat)
  (record : object) (k : nat) :
  normalized record ->
  exists k',
    fst (personnelRecord rng i record k) !! "trainingScore"
    = fst (orDefault [record !! "trainingscore"; record !! "TrainingScore";
                      record !! "score"; record !! "Score"]
             (randomInt rng 40 60) k').
Proof.
  intros Hn. unfold personnelRecord, bind. run_binds. simpl.
  rewrite lookup_union_r
    by (apply normalized_absent; [exact Hn | reflexivity]).
  match goal with
  | H : orDefault _ (randomInt rng 40 60) ?k0 = _ |- _ =>
      exists k0; rewrite H
  end.
  apply objectLiteral_lookup; [exact literal_keys_NoDup|].
  simpl. tauto.
Qed.

(** A zero in the training-score column, and none but a zero in a score
    column, leave the training score to the generated default. *)
Lemma personnelRecord_zero_trainingScore (rng : nat -> Q) (i : nat)
  (record : object) (k : nat) :
  (forall j, (0 <= rng j < 1)%Q) ->
  normalized record ->
  record !! "trainingscore" = Some zero ->
  record !! "score" = None \/ record !! "score" = Some zero ->
  exists n,
    fst (personnelRecord rng i record k) !! "trainingScore"
    = Some (VNum (Finite (inject_Z n)))
    /\ (60 <= n <= 99)%Z.
Proof.
  intros Hrng Hn Hts Hscore.
  destruct (personnelRecord_trainingScore rng i record k Hn) as [k' ->].
  unfold orDefault.
  rewrite Hts.
  rewrite (normalized_absent record "TrainingScore" Hn eq_refl).
  rewrite (normalized_absent record "Score" Hn eq_refl).
  assert (F : firstTruthy [Some zero; None; record !! "score"; None] = None).
  { destruct Hscore as [-> | ->]; reflexivity. }
  rewrite F.
  destruct (randomInt_range rng Hrng 40 60 k') as (m & -> & Hm); [lia|].
  exists m. split; [reflexivity|lia].
Qed.


End Rows.

(** ** The record normalizer on whole texts *)

Section Texts.
Import JS DataParser.

Lemma halves_range : forall k, (0 <= halves k < 1)%Q.
Proof. intros k. unfold halves. split; [discriminate|reflexivity]. Qed.

Lemma parseCSVData_two_lines (rng : nat -> Q) (text header line : string) :
  nonBlankLines text = [header; line] ->
  length (fields line) = length (fields header) ->
  parseCSVData rng text
  = inr [fst (personnelRecord rng 1
                (buildRecord (fields header) (fields line)) 0)].
Proof.
  intros Hlines Hlen. unfold parseCSVData. cbv zeta. rewrite Hlines.
  cbn [length Nat.ltb Nat.leb hd tl parseRows].
  rewrite Hlen, Nat.eqb_refl. cbn [negb]. unfold bind.
  destruct (personnelRecord rng 1
              (buildRecord (fields header) (fields line)) 0) as [r k1].
  reflexivity.
Qed.






End Texts.




(** C3 at a failing input.  A training-score cell that does not parse is
    stored as zero under the normalized name, but the record's
    [trainingScore] is not zero: it is the generated default, a whole
    number from 60 to 99. *)
Theorem parseCSVData_unparsable_trainingScore (rng : nat -> Q) :
  (forall k, (0 <= rng k < 1)%Q) ->
  JS.parseFloat "abc" = JS.NaN
  /\ exists r n,
       DataParser.parseCSVData rng unparsableScoreText = inr [r]
       /\ r !! "trainingscore" = Some zero
       /\ r !! "trainingScore" = Some (JS.VNum (JS.Finite (inject_Z n)))
       /\ (60 <= n <= 99)%Z.
Proof.
  intros Hrng. split; [reflexivity|].
  pose proof (parseCSVData_two_lines rng unparsableScoreText
                "id,Training Score" "A1,abc" eq_refl eq_refl) as Hparse.
  set (record := DataParser.buildRecord
                   (DataParser.fields "id,Training Score")
                   (DataParser.fields "A1,abc")) in *.
  assert (Hts : record !! "trainingscore" = Some zero)
    by (vm_compute; reflexivity).
  assert (Hscore : record !! "score" = None) by (vm_compute; reflexivity).
  destruct (personnelRecord_zero_trainingScore rng 1 record 0 Hrng
              (buildRecord_normalized _ _) Hts (or_introl Hscore))
    as (n & Hn & Hrange).
  exists (fst (DataParser.personnelRecord rng 1 record 0)), n.
  split; [exact Hparse|]. split; [|split; [exact Hn|exact Hrange]].
  now apply personnelRecord_spread.
Qed.

Lemma parseCSVData_unparsable_trainingScore_witness :
  exists r n,
    DataParser.parseCSVData halves unparsableScoreText = inr [r]
    /\ r !! "trainingscore" = Some zero
    /\ r !! "trainingScore" = Some (JS.VNum (JS.Finite (inject_Z n)))
    /\ (60 <= n <= 99)%Z.
Proof.
  exact (proj2 (parseCSVData_unparsable_trainingScore halves halves_range)).
Defined.

(** C4 at a failing input.  The quoted field is cut at its comma, the row
    has three fields under two headers, and it is skipped: no record is
    delivered. *)
Theorem parseCSVData_quoted_comma (rng : nat -> Q) :
  DataParser.fields (quoted "Doe, John" ++ ",Captain")
  = ["Doe"; "John"; "Captain"]
  /\ DataParser.parseCSVData rng quotedCommaText = inr [].
Proof. split; vm_compute; reflexivity. Qed.

Lemma parseCSVData_malformed_witness :
  DataParser.parseCSVData halves headerOnlyText
  = inl DataParser.MalformedInputError.
Proof.
  apply (proj2 (proj1 (parseCSVData_malformed halves headerOnlyText))).
  vm_compute. lia.
Defined.

(** ** The planning stores *)

Section TrainingStore.
Import TrainingManagement.

Lemma enrollPersonnel_each (programId personnelId : string)
  (prev : list TrainingProgram) :
  Forall2 (enrolledOrSame programId personnelId) prev
    (enrollPersonnel programId personnelId prev).
Proof.
  unfold enrollPersonnel.
  induction prev as [|program prev IH]; simpl; constructor; [|exact IH].
  destruct (String.eqb_spec (id program) programId) as [Hid|Hid];
    cbn [andb]; [|now left].
  destruct (Z.ltb_spec (Z.of_nat (length (enrolledPersonnel program)))
              (capacity program)) as [Hlt|Hge]; [|now left].
  right. auto.
Qed.

Lemma enrollPersonnel_full (programId personnelId : string)
  (prev : list TrainingProgram) :
  (forall program, In program prev -> id program = programId ->
                   (capacity program <= rosterSize program)%Z) ->
  enrollPersonnel programId personnelId prev = prev.
Proof.
  unfold enrollPersonnel, rosterSize.
  induction prev as [|program prev IH]; simpl; intros Hfull; [reflexivity|].
  rewrite IH by (intros q Hq; apply Hfull; now right). f_equal.
  destruct (String.eqb_spec (id program) programId) as [Hid|Hid];
    cbn [andb]; [|reflexivity].
  specialize (Hfull program (or_introl eq_refl) Hid).
  destruct (Z.ltb_spec (Z.of_nat (length (enrolledPersonnel program)))
              (capacity program)); [lia|reflexivity].
Qed.

Lemma enrollPersonnel_within (programId personnelId : string)
  (prev : list TrainingProgram) :
  Forall withinCapacity prev ->
  Forall withinCapacity (enrollPersonnel programId personnelId prev).
Proof.
  intros Hprev.
  pose proof (enrollPersonnel_each programId personnelId prev) as Heach.
  induction Heach as [|old new olds news Hstep _ IH]; [constructor|].
  inversion Hprev as [|? ? Hold Holds]; subst.
  constructor; [|now apply IH].
  destruct Hstep as [->|(_ & Hlt & ->)]; [exact Hold|].
  left. unfold rosterSize in *. simpl. rewrite length_app. simpl. lia.
Qed.

Lemma unenrollPersonnel_within (programId personnelId : string)
  (prev : list TrainingProgram) :
  Forall withinCapacity prev ->
  Forall withinCapacity (unenrollPersonnel programId personnelId prev).
Proof.
  unfold unenrollPersonnel. intros Hprev.
  induction Hprev as [|program prev Hp _ IH]; simpl; constructor;
    [|exact IH].
  destruct (String.eqb (id program) programId); [|exact Hp].
  destruct Hp as [Hle|Hnil].
  - left. unfold rosterSize in *. simpl.
    pose proof (List.filter_length_le
                  (fun i => negb (String.eqb i personnelId))
                  (enrolledPersonnel program)).
    lia.
  - right. simpl. now rewrite Hnil.
Qed.

Lemma createTrainingProgram_within (addDays : string -> Z -> string)
  (newProgram : NewProgram) (prev : list TrainingProgram) :
  Forall withinCapacity prev ->
  Forall withinCapacity (createTrainingProgram addDays newProgram prev).
Proof.
  intros Hprev. unfold createTrainingProgram.
  destruct (String.eqb (newName newProgram) EmptyString
            || String.eqb (newType newProgram) EmptyString
            || String.eqb (newStartDate newProgram) EmptyString);
    [exact Hprev|].
  apply Forall_app. split; [exact Hprev|].
  constructor; [|constructor]. now right.
Qed.

Lemma run_within (addDays : string -> Z -> string) (actions : list Action) :
  Forall withinCapacity (run addDays actions).
Proof.
  unfold run.
  assert (Hinit : Forall withinCapacity initialTrainingPrograms).
  { repeat constructor; left; vm_compute; discriminate. }
  revert Hinit. generalize initialTrainingPrograms.
  induction actions as [|a actions IH]; simpl; intros s Hs; [exact Hs|].
  apply IH. destruct a; simpl.
  - now apply enrollPersonnel_within.
  - now apply unenrollPersonnel_within.
  - now apply createTrainingProgram_within.
Qed.

End TrainingStore.

(** C5, as the code has it.  In the training-program store,
    [enrollPersonnel] appends the personnel ID to a program only when the
    program is the one named and its roster size is strictly below its
    capacity; when the named program is at capacity the store is left
    exactly as it was; and in no state reached from the initial programs
    by enrolling, unenrolling and creating programs does a roster exceed
    its capacity (a program created with a negative capacity keeps an
    empty roster).  The mission store has no capacity and is not
    concerned. *)
Theorem enrollPersonnel_capacity (addDays : string -> Z -> string) :
  (forall programId personnelId prev,
      Forall2 (enrolledOrSame programId personnelId) prev
        (TrainingManagement.enrollPersonnel programId personnelId prev))
  /\ (forall programId personnelId prev,
         (forall program, In program prev ->
            TrainingManagement.id program = programId ->
            (TrainingManagement.capacity program <= rosterSize program)%Z) ->
         TrainingManagement.enrollPersonnel programId personnelId prev = prev)
  /\ (forall actions,
         Forall withinCapacity (TrainingManagement.run addDays actions)).
Proof.
  split; [exact enrollPersonnel_each|].
  split; [exact enrollPersonnel_full|].
  exact (run_within addDays).
Qed.

Lemma enrollPersonnel_capacity_witness :
  TrainingManagement.enrollPersonnel "T009" "IAF0003" [fullProgram]
  = [fullProgram].
Proof.
  apply (proj1 (proj2 (enrollPersonnel_capacity (fun s _ => s)))).
  intros program [<-|[]] _. vm_compute. discriminate.
Defined.

(** C5, as the text has it, fails for the mission store: twenty-six
    assignments to the first mission, which requires 25, all enter its
    roster. *)
Lemma assignPersonnelToMission_counterexample :
  List.map
    (fun m => (MissionDeployment.id m, MissionDeployment.requiredPersonnel m,
               length (MissionDeployment.assignedPersonnel m)))
    (Nat.iter 26
       (MissionDeployment.assignPersonnelToMission "M001" "IAF0001")
       MissionDeployment.initialMissions)
  = [("M001", 25%Z, 26%nat); ("M002", 15%Z, 0%nat)].
Proof. vm_compute. reflexivity. Qed.

(** ** The analytics aggregator *)

Section Percentages.
Import JS WorkforceAnalytics.








Section Rounding.

Variable total : nat.
Hypothesis some : (0 < total)%nat.





End Rounding.






End Percentages.




(** The list of specializations is cut to its first ten groups, so its
    percentages cover those groups only: ten of twenty groups of one
    record each make 50%. *)
Example specializationData_top_ten :
  WorkforceAnalytics.totalPercentage
    (WorkforceAnalytics.specializationData twentySpecializations) = 500%Z.
Proof. vm_compute. reflexivity. Qed.

(** ** Generated identifiers *)

Section Identifiers.
Import JS.

Lemma decimalFrom_app (s t : string) (acc : N) :
  decimalFrom acc (s ++ t) = decimalFrom (decimalFrom acc s) t.
Proof.
  revert acc. induction s as [|c s IH]; intros acc; simpl; [reflexivity|].
  apply IH.
Qed.

Lemma string_app_assoc (s t u : string) :
  ((s ++ t) ++ u = s ++ (t ++ u))%string.
Proof.
  induction s as [|c s IH]; [reflexivity|].
  change (String c ((s ++ t) ++ u) = String c (s ++ (t ++ u)))%string.
  now f_equal.
Qed.

Lemma pretty_N_go_app (x : N) (s : string) :
  pretty_N_go x s = (pretty_N_go x EmptyString ++ s)%string.
Proof.
  revert s. induction (N.lt_wf_0 x) as [x _ IH]; intros s.
  destruct (N.eq_dec x 0%N) as [->|Hx].
  - now rewrite !pretty_N_go_0.
  - assert (Hpos : (0 < x)%N) by lia.
    rewrite (pretty_N_go_step x s Hpos).
    rewrite (pretty_N_go_step x EmptyString Hpos).
    assert (Hlt : (x `div` 10 < x)%N) by (apply N.div_lt; lia).
    rewrite (IH _ Hlt (String _ s)).
    rewrite (IH _ Hlt (String _ EmptyString)).
    now rewrite string_app_assoc.
Qed.

Lemma pretty_N_char_code (d : N) :
  (d < 10)%N -> (charCode (pretty_N_char d) - 48)%N = d.
Proof.
  intros Hd.
  assert (d = 0 \/ d = 1 \/ d = 2 \/ d = 3 \/ d = 4 \/ d = 5 \/ d = 6
          \/ d = 7 \/ d = 8 \/ d = 9)%N as H by lia.
  repeat (destruct H as [->|H]; [reflexivity|]). now subst.
Qed.

Lemma decimalValue_pretty_go (x : N) :
  decimalValue (pretty_N_go x EmptyString) = x.
Proof.
  unfold decimalValue. induction (N.lt_wf_0 x) as [x _ IH].
  destruct (N.eq_dec x 0%N) as [->|Hx]; [reflexivity|].
  assert (Hpos : (0 < x)%N) by lia.
  rewrite (pretty_N_go_step x EmptyString Hpos), pretty_N_go_app.
  rewrite decimalFrom_app, IH by (apply N.div_lt; lia).
  simpl. rewrite pretty_N_char_code by (apply N.mod_lt; lia).
  pose proof (N.div_mod x 10). lia.
Qed.

Lemma decimalValue_stringOfNat (i : nat) :
  decimalValue (stringOfNat i) = N.of_nat i.
Proof.
  unfold stringOfNat, pretty, pretty_nat, pretty, pretty_N.
  destruct (decide (N.of_nat i = 0%N)) as [->|_]; [reflexivity|].
  apply decimalValue_pretty_go.
Qed.

Lemma decimalFrom_zeros (n : nat) (s : string) :
  decimalFrom 0
    (string_of_list_ascii (repeat (ascii_of_N 48) n) ++ s)
  = decimalFrom 0 s.
Proof.
  induction n as [|n IH]; simpl; [reflexivity|]. exact IH.
Qed.

(** Two numbers padded with zeros to the same width read the same only
    when they are the same. *)
Lemma padStart_stringOfNat_inj (n a b : nat) :
  padStart n (ascii_of_N 48) (stringOfNat a)
  = padStart n (ascii_of_N 48) (stringOfNat b) ->
  a = b.
Proof.
  intros H. apply (f_equal decimalValue) in H.
  unfold padStart, decimalValue in H.
  rewrite !decimalFrom_zeros in H.
  fold (decimalValue (stringOfNat a)) in H.
  fold (decimalValue (stringOfNat b)) in H.
  rewrite !decimalValue_stringOfNat in H. lia.
Qed.

End Identifiers.
